(** * Fraud-detection service: the feature aligner and the prediction endpoint

    A shallow embedding of [src/utils.py] ([prepare_features_from_raw]) and of
    [src/app.py] ([predict]), with the properties of the specification stated
    over it.

    Python floats are IEEE-754 binary64 numbers: they are Rocq's primitive
    floats, so that [amount > 500], [prob >= 0.5] and [(x - mean) / scale]
    compute exactly what the interpreter computes.  Python ints are [Z].
    Dictionaries that the code only reads ([record]) are association lists in
    insertion order; the dictionary the code builds and updates ([row]) is a
    finite map.  Exceptions are values of an error monad. *)

From Stdlib Require Import ZArith List String Ascii Bool Floats DecimalString Lia.
From stdpp Require Import gmap strings list.

#[local] Set Warnings "-register-all".
Local Open Scope Z_scope.
Local Open Scope string_scope.

(** ** Python values and exceptions *)

(** What [json.loads] (and so [request.get_json]) can return.  A dict is the
    list of its items, in insertion order; its keys are distinct. *)
Inductive pyval : Type :=
| PNone
| PBool (b : bool)
| PInt (z : Z)
| PFloat (f : float)
| PStr (s : string)
| PList (l : list pyval)
| PDict (d : list (string * pyval)).

(** [type(v).__name__] *)
Definition type_name (v : pyval) : string :=
  match v with
  | PNone => "NoneType"
  | PBool _ => "bool"
  | PInt _ => "int"
  | PFloat _ => "float"
  | PStr _ => "str"
  | PList _ => "list"
  | PDict _ => "dict"
  end.

(** A Python number, as stored in a cell of [row] and of the data frame. *)
Inductive num : Type :=
| NInt (z : Z)
| NFloat (f : float).

Inductive exn_kind : Type :=
| ValueError | TypeError | OverflowError | AttributeError | KeyError | RuntimeError.

(** An exception: its class and [str(e)]. *)
Record exn : Type := Exn { kind : exn_kind; message : string }.

(** The outcome of evaluating an expression: a value, or a raised exception. *)
Inductive result (A : Type) : Type :=
| Ok (a : A)
| Raise (e : exn).
Arguments Ok {A} a.
Arguments Raise {A} e.

Definition bind {A B : Type} (r : result A) (k : A -> result B) : result B :=
  match r with
  | Ok a => k a
  | Raise e => Raise e
  end.

Notation "'try!' x := r 'in' k" := (bind r (fun x => k))
  (at level 10, x name, r at level 100, k at level 200).

Definition raises {A : Type} (r : result A) : Prop :=
  match r with Ok _ => False | Raise _ => True end.

Definition returns {A : Type} (r : result A) : Prop :=
  match r with Ok _ => True | Raise _ => False end.

(** ** Numbers *)

(** The float nearest to an integer (ties to even), as [float(n)] and numpy's
    int-to-float64 cast compute it; out of range it is an infinity. *)
Definition Z_to_float (z : Z) : float :=
  SF2Prim (binary_normalize prec emax z 0 false).

(** [float(n)] for a Python int: [OverflowError] when [n] has no finite
    nearest float. *)
Definition int_to_float (z : Z) : result float :=
  let f := Z_to_float z in
  if is_infinity f
  then Raise (Exn OverflowError "int too large to convert to float")
  else Ok f.

(** [int(f)] for a Python float: truncation towards zero. *)
Definition float_to_int (f : float) : result Z :=
  match Prim2SF f with
  | S754_zero _ => Ok 0
  | S754_finite s m e =>
      let a := if (0 <=? e)%Z then Z.shiftl (Zpos m) e else Z.shiftr (Zpos m) (- e) in
      Ok (if s then - a else a)
  | S754_infinity _ =>
      Raise (Exn OverflowError "cannot convert float infinity to integer")
  | S754_nan =>
      Raise (Exn ValueError "cannot convert float NaN to integer")
  end.

(** [float(val)] where [val] is one of the numbers the aligner derives: an
    hour, a day of the month, a 0/1 flag, or a float. *)
Definition num_to_float (v : num) : float :=
  match v with
  | NInt z => Z_to_float z
  | NFloat f => f
  end.

(** Truth value of a Python int ([if n:]). *)
Definition int_truthy (z : Z) : bool := negb (z =? 0)%Z.

(** Truth value of a JSON value ([x or y], [if x:]). *)
Definition truthy (v : pyval) : bool :=
  match v with
  | PNone => false
  | PBool b => b
  | PInt z => negb (z =? 0)%Z
  | PFloat f => negb (PrimFloat.eqb f 0)
  | PStr s => negb (String.eqb s "")
  | PList l => match l with [] => false | _ => true end
  | PDict d => match d with [] => false | _ => true end
  end.

(** ** Dates *)

(** A [datetime.datetime] / a [pandas.Timestamp]. *)
Record datetime : Type := Datetime {
  year : Z; month : Z; day : Z; hour : Z; minute : Z; second : Z
}.

(** What [pd.to_datetime] returns for a scalar: a [Timestamp], [NaT] (for an
    empty string for instance) or [None] (for [None]). *)
Inductive pd_datetime : Type :=
| Timestamp (t : datetime)
| NaT
| PdNone.

(** ** The library functions the code calls

    The parsers and the classifiers are not code of this repository: the
    model takes them as a parameter, with their Python types. *)
Record Runtime : Type := {
  (** [float(s)] for a str [s]; raises [ValueError] on a malformed one. *)
  str_to_float : string -> result float;
  (** [int(s)] for a str [s]; raises [ValueError] on a malformed one. *)
  str_to_int : string -> result Z;
  (** [repr(v)], which is [str(v)] for every JSON value that is not a str. *)
  py_repr : pyval -> string;
  (** [pd.to_datetime(v)] for a value other than [None], called at the time
      [now]: pandas resolves the strings ["now"] and ["today"] against the
      current time. *)
  to_datetime : datetime -> pyval -> result pd_datetime;
  (** The fitted classifiers. *)
  Model : Type;
  (** [float(model.predict_proba(x)[0][1])] for a one-row frame [x]. *)
  predict_proba1 : Model -> list (string * num) -> result float
}.

(** ** Conversions of JSON values *)

Section Conversions.
Variable rt : Runtime.

(** [float(v)] *)
Definition py_float (v : pyval) : result float :=
  match v with
  | PFloat f => Ok f
  | PInt z => int_to_float z
  | PBool b => Ok (if b then 1 else 0)%float
  | PStr s => str_to_float rt s
  | PNone | PList _ | PDict _ =>
      Raise (Exn TypeError
        ("float() argument must be a string or a real number, not '"
         +:+ type_name v +:+ "'"))
  end.

(** [int(v)] *)
Definition py_int (v : pyval) : result Z :=
  match v with
  | PInt z => Ok z
  | PBool b => Ok (if b then 1 else 0)
  | PFloat f => float_to_int f
  | PStr s => str_to_int rt s
  | PNone | PList _ | PDict _ =>
      Raise (Exn TypeError
        ("int() argument must be a string, a bytes-like object or a real number, not '"
         +:+ type_name v +:+ "'"))
  end.

(** [str(v)]: never raises. *)
Definition py_str (v : pyval) : string :=
  match v with
  | PStr s => s
  | _ => py_repr rt v
  end.

(** [pd.to_datetime(v)], called at the time [now]. *)
Definition pd_to_datetime (now : datetime) (v : pyval) : result pd_datetime :=
  match v with
  | PNone => Ok PdNone
  | _ => to_datetime rt now v
  end.
End Conversions.

(** [timestamp.hour] and [timestamp.day]: an int for a [Timestamp], the
    float nan for [NaT]; [None] has no such attribute. *)
Definition attr_hour (t : pd_datetime) : result num :=
  match t with
  | Timestamp d => Ok (NInt (hour d))
  | NaT => Ok (NFloat nan)
  | PdNone => Raise (Exn AttributeError "'NoneType' object has no attribute 'hour'")
  end.

Definition attr_day (t : pd_datetime) : result num :=
  match t with
  | Timestamp d => Ok (NInt (day d))
  | NaT => Ok (NFloat nan)
  | PdNone => Raise (Exn AttributeError "'NoneType' object has no attribute 'day'")
  end.

(** ** Dictionaries that are read *)

(** [d.get(k)] on the items of a dict. *)
Fixpoint dict_get (d : list (string * pyval)) (k : string) : option pyval :=
  match d with
  | [] => None
  | (k', v) :: d' => if String.eqb k' k then Some v else dict_get d' k
  end.

(** [record.get]: only a dict has the method. *)
Definition get_method (record : pyval) : result (list (string * pyval)) :=
  match record with
  | PDict d => Ok d
  | _ =>
      Raise (Exn AttributeError
        ("'" +:+ type_name record +:+ "' object has no attribute 'get'"))
  end.

(** [d.get(k, dflt)] *)
Definition get (d : list (string * pyval)) (k : string) (dflt : pyval) : pyval :=
  match dict_get d k with
  | Some v => v
  | None => dflt
  end.

(** ** The loaded preprocessing assets *)

(** The fitted [sklearn.preprocessing.StandardScaler]: the columns it was
    fitted on ([None] when the object has no attribute [feature_names_in_]),
    their means and their scales (the standard deviations). *)
Record StandardScaler : Type := {
  feature_names_in_ : option (list string);
  mean_ : list float;
  scale_ : list float
}.

(** A one-row [pandas.DataFrame]: its columns, in order, each with its cell. *)
Definition DataFrame : Type := list (string * num).

Definition columns (df : DataFrame) : list string := map fst df.

(** [df[c]] for one column. *)
Fixpoint frame_get (df : DataFrame) (c : string) : option num :=
  match df with
  | [] => None
  | (c', v) :: df' => if String.eqb c' c then Some v else frame_get df' c
  end.

(** [df[cols]]: [KeyError] when a column is not in the frame. *)
Fixpoint frame_select (df : DataFrame) (cols : list string) : result (list num) :=
  match cols with
  | [] => Ok []
  | c :: cs =>
      match frame_get df c with
      | None => Raise (Exn KeyError "not in index")
      | Some v => try! vs := frame_select df cs in Ok (v :: vs)
      end
  end.

(** [df[c] = v] for a column of the frame. *)
Definition frame_set (c : string) (v : num) (df : DataFrame) : DataFrame :=
  map (fun cv => if String.eqb (fst cv) c then (fst cv, v) else cv) df.

(** [df[cols] = ys]: column by column. *)
Fixpoint frame_assign (df : DataFrame) (cols : list string) (ys : list float)
  : DataFrame :=
  match cols, ys with
  | c :: cs, y :: ys' => frame_assign (frame_set c (NFloat y) df) cs ys'
  | _, _ => df
  end.

(** [pd.DataFrame([row], columns=cols)]: the columns are [cols]; a column
    that is not a key of [row] is filled with nan. *)
Definition make_frame (row : gmap string num) (cols : list string) : DataFrame :=
  map (fun c => (c, default (NFloat nan) (row !! c))) cols.

(** One column of [StandardScaler.transform]. *)
Definition standardize (x mean scale : float) : float := ((x - mean) / scale)%float.

(** [SCALER.transform(X)] for a one-row [X]: the input is cast to float64
    and validated (as many columns as the scaler was fitted on, nan allowed,
    infinity refused), then every column is standardized. *)
Definition transform (sc : StandardScaler) (X : list num) : result (list float) :=
  let xs := map num_to_float X in
  if negb (Nat.eqb (length xs) (length (mean_ sc)) && Nat.eqb (length xs) (length (scale_ sc)))
  then Raise (Exn ValueError "X has a different number of features than StandardScaler is expecting")
  else if existsb is_infinity xs
  then Raise (Exn ValueError "Input contains infinity or a value too large for dtype('float64').")
  else Ok (zip_with (fun x ms => standardize x (fst ms) (snd ms)) xs
             (zip (mean_ sc) (scale_ sc))).

(** Lines 72-75: scale the scaler's columns in place. *)
Definition scale_frame (sc : StandardScaler) (df_one : DataFrame) : result DataFrame :=
  match feature_names_in_ sc with
  | None => Ok df_one
  | Some cols_to_scale =>
      try! X := frame_select df_one cols_to_scale in
      try! Y := transform sc X in
      Ok (frame_assign df_one cols_to_scale Y)
  end.

(** ** The feature aligner ([utils.py]) *)

(** The local variables of lines 19-29. *)
Record fields : Type := Fields {
  amount : float;
  category : string;
  merchant : string;
  timestamp : pd_datetime;
  location : string;
  device : string;
  card_present : Z;
  cvv_present : Z;
  card_bin : Z;
  ip_address : string;
  chargeback_history : float
}.

(** The local variables of lines 32-35. *)
Record engineered : Type := Engineered {
  transaction_hour : num;
  transaction_day : num;
  is_high_amount : Z;
  card_info_match : Z
}.

(** [if name in row: row[name] = v] *)
Definition set_if_present (name : string) (v : num) (row : gmap string num)
  : gmap string num :=
  match row !! name with
  | Some _ => <[name := v]> row
  | None => row
  end.

(** Line 38: [{col: 0.0 for col in TRAIN_COLUMNS}] *)
Definition row_init (cols : list string) : gmap string num :=
  foldl (fun row col => <[col := NFloat 0]> row) ∅ cols.

(** Lines 41-50 *)
Definition fill_numeric (f : fields) (e : engineered) (row : gmap string num)
  : gmap string num :=
  foldl (fun row nv => set_if_present (fst nv) (NFloat (num_to_float (snd nv))) row)
    row
    [ ("amount", NFloat (amount f));
      ("chargeback_history", NFloat (chargeback_history f));
      ("transaction_hour", transaction_hour e);
      ("transaction_day", transaction_day e);
      ("is_high_amount", NInt (is_high_amount e));
      ("card_info_match", NInt (card_info_match e)) ].

(** Lines 53-56 *)
Definition fill_binary (f : fields) (row : gmap string num) : gmap string num :=
  let row := set_if_present "card_present" (NInt (card_present f)) row in
  set_if_present "cvv_present" (NInt (cvv_present f)) row.

(** The dict literal of lines 59-64, in order. *)
Definition one_hot_items (f : fields) : list (string * string) :=
  [ ("merchant", merchant f);
    ("category", category f);
    ("location", location f);
    ("device", device f) ].

(** Line 65: [f"{prefix}_{value}"] *)
Definition one_hot_column (prefix value : string) : string :=
  prefix +:+ "_" +:+ value.

(** Lines 59-67 *)
Definition one_hot (items : list (string * string)) (row : gmap string num)
  : gmap string num :=
  foldl (fun row pv => set_if_present (one_hot_column (fst pv) (snd pv)) (NFloat 1) row)
    row items.

Section Aligner.
Variable rt : Runtime.
(** The module-level globals of [utils.py], loaded once. *)
Variable TRAIN_COLUMNS : list string.
Variable SCALER : StandardScaler.

(** Lines 19-29.  [now] is the time of the call: the value of
    [datetime.now()], the default of the timestamp, and the time that
    [pd.to_datetime] reads for a timestamp written relative to it. *)
Definition extract (now : datetime) (record : pyval) : result fields :=
  try! d := get_method record in
  try! amount := py_float rt (get d "amount" (PFloat 0)) in
  let category := py_str rt (get d "category" (PStr "Other")) in
  let merchant := py_str rt (get d "merchant" (PStr "Unknown")) in
  try! timestamp :=
    match dict_get d "timestamp" with
    | Some v => pd_to_datetime rt now v
    | None => Ok (Timestamp now)
    end in
  let location := py_str rt (get d "location" (PStr "Unknown")) in
  let device := py_str rt (get d "device" (PStr "Unknown")) in
  try! card_present := py_int rt (get d "card_present" (PInt 0)) in
  try! cvv_present := py_int rt (get d "cvv_present" (PInt 0)) in
  try! card_bin := py_int rt (get d "card_bin" (PInt 0)) in
  let ip_address := py_str rt (get d "ip_address" (PStr "0.0.0.0")) in
  try! chargeback_history := py_float rt (get d "chargeback_history" (PInt 0)) in
  Ok (Fields amount category merchant timestamp location device
        card_present cvv_present card_bin ip_address chargeback_history).

(** Lines 32-35 *)
Definition engineer (f : fields) : result engineered :=
  try! transaction_hour := attr_hour (timestamp f) in
  try! transaction_day := attr_day (timestamp f) in
  let is_high_amount := if (500 <? amount f)%float then 1 else 0 in
  let card_info_match :=
    if int_truthy (card_present f) && int_truthy (cvv_present f) then 1 else 0 in
  Ok (Engineered transaction_hour transaction_day is_high_amount card_info_match).

(** Lines 38-67: the dict [row], with the one-hot loop run over [items]. *)
Definition build_row (f : fields) (e : engineered) (items : list (string * string))
  : gmap string num :=
  one_hot items (fill_binary f (fill_numeric f e (row_init TRAIN_COLUMNS))).

(** Line 70: the frame before scaling. *)
Definition unscaled_frame (f : fields) (e : engineered)
  (items : list (string * string)) : DataFrame :=
  make_frame (build_row f e items) TRAIN_COLUMNS.

(** Lines 38-77 *)
Definition finish (f : fields) (e : engineered) (items : list (string * string))
  : result DataFrame :=
  scale_frame SCALER (unscaled_frame f e items).

Definition prepare_features_from_raw (now : datetime) (record : pyval)
  : result DataFrame :=
  try! f := extract now record in
  try! e := engineer f in
  finish f e (one_hot_items f).
End Aligner.

(** ** The prediction service ([app.py]) *)

(** [c.lower()] on an ASCII letter; the bytes of other characters are kept,
    and no character outside ASCII lowers to one of the letters l, r, f. *)
Definition lower_ascii (c : ascii) : ascii :=
  let n := nat_of_ascii c in
  if (Nat.leb 65 n && Nat.leb n 90)%bool then ascii_of_nat (n + 32) else c.

(** [s.lower()] *)
Fixpoint lower (s : string) : string :=
  match s with
  | EmptyString => EmptyString
  | String c s' => String (lower_ascii c) (lower s')
  end.

(** [k in s] for two strs: [k] occurs in [s]. *)
Fixpoint substring_of (k s : string) : bool :=
  String.prefix k s ||
  match s with
  | EmptyString => false
  | String _ s' => substring_of k s'
  end.

(** [k in data] for a str [k]: a key of a dict, an element of a list, a
    substring of a str; [TypeError] for a number or a bool. *)
Definition contains (data : pyval) (k : string) : result bool :=
  match data with
  | PDict d => Ok (match dict_get d k with Some _ => true | None => false end)
  | PList l =>
      Ok (existsb (fun v => match v with PStr s => String.eqb s k | _ => false end) l)
  | PStr s => Ok (substring_of k s)
  | PNone | PBool _ | PInt _ | PFloat _ =>
      Raise (Exn TypeError
        ("argument of type '" +:+ type_name data +:+ "' is not iterable"))
  end.

(** Lines 52-56 *)
Definition required : list string :=
  [ "amount"; "category"; "merchant"; "timestamp";
    "location"; "device"; "card_present"; "cvv_present";
    "card_bin"; "ip_address"; "chargeback_history" ].

(** Line 57: [[k for k in required if k not in data]] *)
Fixpoint missing_fields (data : pyval) (ks : list string) : result (list string) :=
  match ks with
  | [] => Ok []
  | k :: ks' =>
      try! present := contains data k in
      try! rest := missing_fields data ks' in
      Ok (if present then rest else k :: rest)
  end.

(** [repr] of a list of plain names: [['amount', 'category']]. *)
Fixpoint join_names (ks : list string) : string :=
  match ks with
  | [] => ""
  | [k] => "'" +:+ k +:+ "'"
  | k :: ks' => "'" +:+ k +:+ "', " +:+ join_names ks'
  end.

Definition repr_names (ks : list string) : string := "[" +:+ join_names ks +:+ "]".

(** The integer nearest to [a / b], ties to even, for [0 <= a] and [0 < b]. *)
Definition div_half_even (a b : Z) : Z :=
  let q := a / b in
  let r := a mod b in
  match (2 * r ?= b)%Z with
  | Lt => q
  | Gt => q + 1
  | Eq => if Z.even q then q else q + 1
  end.

(** [round(x, ndigits)] for a float and [0 <= ndigits]: the exact value of
    [x] is rounded to [ndigits] decimals, ties to even, and the float
    nearest to that decimal is returned; nan and the infinities are kept. *)
Definition py_round (x : float) (ndigits : N) : float :=
  match Prim2SF x with
  | S754_finite s m e =>
      let p := Z.pow 10 (Z.of_N ndigits) in
      let n :=
        if (0 <=? e)%Z then Z.shiftl (Zpos m) e * p
        else div_half_even (Zpos m * p) (Z.shiftl 1 (- e)) in
      match n with
      | Zpos n' =>
          SF2Prim (SFdiv prec emax (S754_finite s n' 0) (S754_finite false (Z.to_pos p) 0))
      | _ => SF2Prim (S754_zero s)
      end
  | _ => x
  end.

(** What the view function needs of a request: [request.args.get("model")]
    and [request.get_json(silent=True)], which is [None] when the body is
    absent or is not JSON. *)
Record request : Type := {
  args_model : option string;
  get_json : option pyval
}.

(** The JSON documents the view returns through [jsonify]. *)
Inductive json_body : Type :=
| JError (error : string)
| JPrediction (model : string) (input : pyval) (fraud_probability : float)
    (predicted_is_fraud : Z).

(** A response: a body with its status, or an exception that left the view
    function, which Flask answers with its own 500 page. *)
Inductive response : Type :=
| Response (body : json_body) (status : Z)
| Unhandled (e : exn).

Definition status_code (r : response) : Z :=
  match r with
  | Response _ s => s
  | Unhandled _ => 500
  end.

(** Line 44: [(request.args.get("model") or "").lower()] *)
Definition model_choice (req : request) : string :=
  lower (match args_model req with
         | Some s => if truthy (PStr s) then s else ""
         | None => ""
         end).

(** Line 50: [request.get_json(silent=True) or {}] *)
Definition request_data (req : request) : pyval :=
  match get_json req with
  | Some v => if truthy v then v else PDict []
  | None => PDict []
  end.

Section Service.
Variable rt : Runtime.
Variable TRAIN_COLUMNS : list string.
Variable SCALER : StandardScaler.
(** The two classifiers loaded at startup. *)
Variable lr_model rf_model : Model rt.

(** Lines 11-14 *)
Definition MODELS : list (string * Model rt) :=
  [ ("lr", lr_model); ("rf", rf_model) ].

(** [MODELS[choice]], [None] when [choice not in MODELS]. *)
Fixpoint models_get (ms : list (string * Model rt)) (choice : string)
  : option (Model rt) :=
  match ms with
  | [] => None
  | (k, m) :: ms' => if String.eqb k choice then Some m else models_get ms' choice
  end.

(** Lines 62-65, the body of the [try]. *)
Definition prepare_and_predict (now : datetime) (model : Model rt) (data : pyval)
  : result (float * Z) :=
  try! x_new := prepare_features_from_raw rt TRAIN_COLUMNS SCALER now data in
  try! prob := predict_proba1 rt model x_new in
  let is_fraud := if (0.5 <=? prob)%float then 1 else 0 in
  Ok (prob, is_fraud).

(** Lines 42-75 *)
Definition predict (now : datetime) (req : request) : response :=
  let choice := model_choice req in
  match models_get MODELS choice with
  | None => Response (JError "Unknown model. Use ?model=lr or ?model=rf") 400
  | Some model =>
      let data := request_data req in
      match missing_fields data required with
      | Raise e => Unhandled e
      | Ok missing =>
          match missing with
          | _ :: _ =>
              Response (JError ("Missing fields: " +:+ repr_names missing)) 400
          | [] =>
              match prepare_and_predict now model data with
              | Raise e =>
                  Response (JError ("Failed to prepare or predict: " +:+ message e)) 500
              | Ok (prob, is_fraud) =>
                  Response
                    (JPrediction
                       (if String.eqb choice "lr" then "logistic_regression"
                        else "random_forest")
                       data (py_round prob 4) is_fraud)
                    200
              end
          end
      end
  end.
End Service.

(** ** A concrete runtime and concrete assets

    Used to run the model on examples.  Each parser below accepts one plain
    format, on which it agrees with the Python function it stands for, and
    raises [ValueError] on every other string (Python accepts some of
    them). *)
Module Demo.

Definition digit (c : ascii) : option Z :=
  let n := nat_of_ascii c in
  if (Nat.leb 48 n && Nat.leb n 57)%bool then Some (Z.of_nat (n - 48)) else None.

(** The value of a non-empty run of decimal digits. *)
Fixpoint digits_from (acc : Z) (s : string) : option Z :=
  match s with
  | EmptyString => Some acc
  | String c s' =>
      match digit c with
      | Some d => digits_from (10 * acc + d) s'
      | None => None
      end
  end.

Definition digits (s : string) : option Z :=
  match s with
  | EmptyString => None
  | _ => digits_from 0 s
  end.

(** [int("-12")] *)
Definition int_of_string (s : string) : result Z :=
  let bad := Raise (Exn ValueError "invalid literal for int() with base 10") in
  match s with
  | String "-" s' => match digits s' with Some n => Ok (- n) | None => bad end
  | _ => match digits s with Some n => Ok n | None => bad end
  end.

(** The float nearest to [n / 10^k]. *)
Definition decimal_to_float (neg : bool) (n : Z) (k : nat) : float :=
  match n with
  | Zpos m =>
      SF2Prim (SFdiv prec emax (S754_finite neg m 0)
                 (S754_finite false (Z.to_pos (10 ^ Z.of_nat k)) 0))
  | _ => SF2Prim (S754_zero neg)
  end.

(** The digits before and after the first point of [s]. *)
Fixpoint split_point (s : string) : string * option string :=
  match s with
  | EmptyString => (EmptyString, None)
  | String "." s' => (EmptyString, Some s')
  | String c s' => let (a, b) := split_point s' in (String c a, b)
  end.

Definition unsigned_to_float (neg : bool) (s : string) : option float :=
  match split_point s with
  | (a, None) =>
      match digits a with
      | Some n => Some (decimal_to_float neg n 0)
      | None => None
      end
  | (a, Some b) =>
      match digits a, digits b with
      | Some n, Some _ =>
          match digits_from n b with
          | Some nb => Some (decimal_to_float neg nb (String.length b))
          | None => None
          end
      | _, _ => None
      end
  end.

(** [float("-12.5")] *)
Definition float_of_string (s : string) : result float :=
  let bad := Raise (Exn ValueError "could not convert string to float") in
  match s with
  | String "-" s' =>
      match unsigned_to_float true s' with Some f => Ok f | None => bad end
  | _ => match unsigned_to_float false s with Some f => Ok f | None => bad end
  end.

Definition two_digits (a b : ascii) : option Z :=
  match digit a, digit b with
  | Some x, Some y => Some (10 * x + y)
  | _, _ => None
  end.

Definition in_range (lo hi : Z) (o : option Z) : option Z :=
  match o with
  | Some z => if (Z.leb lo z && Z.leb z hi)%bool then Some z else None
  | None => None
  end.

(** A timestamp written [YYYY-MM-DDTHH:MM:SS]. *)
Definition iso_datetime (s : string) : option datetime :=
  match list_ascii_of_string s with
  | [y1; y2; y3; y4; "-"; m1; m2; "-"; d1; d2; "T"; h1; h2; ":"; n1; n2; ":"; s1; s2]%char =>
      match two_digits y1 y2, two_digits y3 y4,
            in_range 1 12 (two_digits m1 m2), in_range 1 31 (two_digits d1 d2),
            in_range 0 23 (two_digits h1 h2), in_range 0 59 (two_digits n1 n2),
            in_range 0 59 (two_digits s1 s2) with
      | Some c, Some y, Some mo, Some d, Some h, Some mi, Some se =>
          Some (Datetime (100 * c + y) mo d h mi se)
      | _, _, _, _, _, _, _ => None
      end
  | _ => None
  end.

(** [pd.to_datetime(v)] on such a str, called at the time [now]; the empty
    str gives [NaT], and ["now"] and ["today"] give the current time. *)
Definition datetime_of_value (now : datetime) (v : pyval) : result pd_datetime :=
  match v with
  | PStr EmptyString => Ok NaT
  | PStr s =>
      if String.eqb s "now" || String.eqb s "today" then Ok (Timestamp now)
      else
      match iso_datetime s with
      | Some t => Ok (Timestamp t)
      | None => Raise (Exn ValueError "Unknown datetime string format")
      end
  | _ => Raise (Exn TypeError "not convertible to datetime")
  end.

(** [repr] of [None], a bool or an int; other values are not rendered. *)
Definition repr_scalar (v : pyval) : string :=
  match v with
  | PNone => "None"
  | PBool true => "True"
  | PBool false => "False"
  | PInt z => DecimalString.NilZero.string_of_int (Z.to_int z)
  | _ => ""
  end.

(** A classifier is stood for by the fraud probability it answers. *)
Definition runtime : Runtime := {|
  str_to_float := float_of_string;
  str_to_int := int_of_string;
  py_repr := repr_scalar;
  to_datetime := datetime_of_value;
  Model := float;
  predict_proba1 := fun m _ => Ok m
|}.

(** Columns in the order [preprocess.py] leaves them: the numeric columns,
    the engineered ones, then the dummies of the four categorical fields. *)
Definition TRAIN_COLUMNS : list string :=
  [ "amount"; "card_present"; "cvv_present"; "card_bin"; "chargeback_history";
    "transaction_hour"; "transaction_day"; "is_high_amount"; "has_notes";
    "card_info_match";
    "merchant_ShopSmart"; "merchant_Unknown";
    "category_Food"; "category_Other";
    "location_New York"; "device_Mobile"; "device_POS" ].

(** A scaler fitted on the [numeric_cols] of [preprocess.py]. *)
Definition SCALER : StandardScaler := {|
  feature_names_in_ :=
    Some ["amount"; "chargeback_history"; "transaction_hour"; "transaction_day"];
  mean_ := [250; 0.5; 12; 15]%float;
  scale_ := [100; 0.5; 4; 8]%float
|}.

Definition noon : datetime := Datetime 2025 10 10 12 0 0.
Definition evening : datetime := Datetime 2025 10 11 21 30 0.

(** The record of the specification's scenario. *)
Definition scenario : pyval :=
  PDict [ ("amount", PFloat 350); ("category", PStr "Food");
          ("merchant", PStr "ShopSmart"); ("timestamp", PStr "2025-10-10T14:30:00");
          ("location", PStr "New York"); ("device", PStr "Mobile");
          ("card_present", PInt 1); ("cvv_present", PInt 1);
          ("card_bin", PInt 453212); ("ip_address", PStr "192.168.1.45");
          ("chargeback_history", PInt 1) ].

(** A fraud probability just under the threshold: 0.5 - 2^-17. *)
Definition borderline : float := 0.49999237060546875.

End Demo.

(** ** The cells of [row], in closed form *)

(** The assignments [row[name] = v] that lines 41-67 attempt, in order; each
    is carried out when [name] is a key of [row]. *)
Definition assignments (f : fields) (e : engineered) (items : list (string * string))
  : list (string * num) :=
  [ ("amount", NFloat (amount f));
    ("chargeback_history", NFloat (chargeback_history f));
    ("transaction_hour", NFloat (num_to_float (transaction_hour e)));
    ("transaction_day", NFloat (num_to_float (transaction_day e)));
    ("is_high_amount", NFloat (Z_to_float (is_high_amount e)));
    ("card_info_match", NFloat (Z_to_float (card_info_match e)));
    ("card_present", NInt (card_present f));
    ("cvv_present", NInt (cvv_present f)) ]
  ++ map (fun pv => (one_hot_column (fst pv) (snd pv), NFloat 1)) items.

(** The last value assigned to [k], if any. *)
Fixpoint assoc_last (l : list (string * num)) (k : string) : option num :=
  match l with
  | [] => None
  | (k', v) :: l' =>
      match assoc_last l' k with
      | Some w => Some w
      | None => if String.eqb k' k then Some v else None
      end
  end.

(** The cell of a column of [TRAIN_COLUMNS] before scaling: the last value
    assigned to it, 0.0 when none was. *)
Definition cell (f : fields) (e : engineered) (items : list (string * string))
  (k : string) : num :=
  match assoc_last (assignments f e items) k with
  | Some v => v
  | None => NFloat 0
  end.

(** The columns that [preprocess.py] (line 69) fits the scaler on. *)
Definition numeric_cols : list string :=
  [ "amount"; "chargeback_history"; "transaction_hour"; "transaction_day" ].

(** The items of the one-hot loop without those of the field [prefix]. *)
Definition without_field (prefix : string) (items : list (string * string))
  : list (string * string) :=
  List.filter (fun pv => negb (String.eqb (fst pv) prefix)) items.

(** ** What the aligner accepts *)

(** The assets as [preprocess.py] writes them: the scaler is fitted on the
    four numeric columns, which are columns of the training frame. *)
Definition fitted_on_numeric_cols (cols : list string) (sc : StandardScaler) : Prop :=
  feature_names_in_ sc = Some numeric_cols /\
  length (mean_ sc) = 4%nat /\ length (scale_ sc) = 4%nat /\
  forall c, c ∈ numeric_cols -> c ∈ cols.








(** Two outcomes of line 22 that the aligner cannot tell apart: two
    Timestamps of the same hour and the same day of the month, or the same
    outcome otherwise. *)
Definition same_reading (r1 r2 : result pd_datetime) : Prop :=
  match r1, r2 with
  | Ok (Timestamp t1), Ok (Timestamp t2) => hour t1 = hour t2 /\ day t1 = day t2
  | _, _ => r1 = r2
  end.

(** The claim that the clock plays no part in what the aligner returns. *)
Definition clock_independent (rt : Runtime) (cols : list string)
  (sc : StandardScaler) : Prop :=
  forall now1 now2 record,
    prepare_features_from_raw rt cols sc now1 record =
    prepare_features_from_raw rt cols sc now2 record.

(** ** What a response says *)

(** In a prediction, the decision reads 1 exactly when the probability that
    the response reports is at least 0.5. *)
Definition decision_matches_report (r : response) : Prop :=
  match r with
  | Response (JPrediction _ _ fraud_probability predicted_is_fraud) _ =>
      predicted_is_fraud = (if (0.5 <=? fraud_probability)%float then 1 else 0)
  | _ => True
  end.

(** The claim that every response does. *)
Definition decisions_match_reports (rt : Runtime) (cols : list string)
  (sc : StandardScaler) (lr_model rf_model : Model rt) : Prop :=
  forall now req, decision_matches_report (predict rt cols sc lr_model rf_model now req).

(** The required fields that are not keys of the dict [d]. *)
Definition absent_fields (d : list (string * pyval)) : list string :=
  List.filter
    (fun k => match dict_get d k with Some _ => false | None => true end) required.

(** ** The identifier columns of [preprocess.py] *)

(** [df.drop(columns=labels).columns] for a frame with the columns [cols]:
    [KeyError] when a label is not a column; otherwise the columns that are
    not labels, in order. *)
Definition drop_columns (cols labels : list string) : result (list string) :=
  if forallb (fun l => existsb (String.eqb l) cols) labels
  then Ok (List.filter (fun c => negb (existsb (String.eqb c) labels)) cols)
  else Raise (Exn KeyError "not found in axis").

(** Lines 78-89 of [preprocess.py] *)
Definition drop_cols : list string :=
  [ "transaction_id"; "user_id"; "merchant_id"; "auth_code"; "card_pan";
    "card_expiry"; "email"; "phone"; "notes"; "ip_address" ].

(** Line 90: [df.drop(columns=[c for c in drop_cols if c in df.columns])] *)
Definition drop_identifiers (cols : list string) : result (list string) :=
  drop_columns cols (List.filter (fun c => existsb (String.eqb c) cols) drop_cols).

(** ** More vocabulary for the statements *)

(** A JSON number or bool: a value that [in] cannot search. *)
Definition is_number (v : pyval) : bool :=
  match v with
  | PBool _ | PInt _ | PFloat _ => true
  | _ => false
  end.


(** The eight columns that lines 41-56 assign by name. *)
Definition named_columns : list string :=
  [ "amount"; "chargeback_history"; "transaction_hour"; "transaction_day";
    "is_high_amount"; "card_info_match"; "card_present"; "cvv_present" ].

(** The scaler was not fitted on the column [c]. *)
Definition not_scaled (sc : StandardScaler) (c : string) : Prop :=
  forall names, feature_names_in_ sc = Some names -> c ∉ names.

(** * Properties *)

(** ** The error monad *)

Lemma bind_Ok {A B : Type} (r : result A) (k : A -> result B) (b : B) :
  bind r k = Ok b -> exists a, r = Ok a /\ k a = Ok b.
Proof. destruct r as [a | e]; simpl; [eauto | discriminate]. Qed.

Lemma returns_Ok {A : Type} (r : result A) : returns r <-> exists a, r = Ok a.
Proof.
  destruct r as [a | e]; simpl; split.
  - eauto.
  - trivial.
  - intros [].
  - intros [a H]. discriminate.
Qed.

Lemma raises_not_returns {A : Type} (r : result A) : raises r <-> ~ returns r.
Proof. destruct r; simpl; tauto. Qed.

(** ** Frames: columns are never added, removed or reordered *)

Lemma columns_frame_set c v df : columns (frame_set c v df) = columns df.
Proof.
  unfold columns, frame_set. induction df as [| [c' v'] df IH]; simpl; [reflexivity |].
  destruct (String.eqb c' c); simpl; now rewrite IH.
Qed.

Lemma columns_frame_assign cols : forall df ys,
  columns (frame_assign df cols ys) = columns df.
Proof.
  induction cols as [| c cs IH]; intros df ys; simpl; [reflexivity |].
  destruct ys as [| y ys]; [reflexivity |].
  now rewrite IH, columns_frame_set.
Qed.

Lemma columns_make_frame row cols : columns (make_frame row cols) = cols.
Proof.
  unfold columns, make_frame. induction cols as [| c cs IH]; simpl; [reflexivity |].
  now rewrite IH.
Qed.

Lemma columns_scale_frame sc df df' :
  scale_frame sc df = Ok df' -> columns df' = columns df.
Proof.
  unfold scale_frame. destruct (feature_names_in_ sc) as [names |].
  - intros H. apply bind_Ok in H as (X & _ & H). apply bind_Ok in H as (Y & _ & H).
    injection H as <-. apply columns_frame_assign.
  - intros H. now injection H as <-.
Qed.

Lemma prepare_inv rt cols sc now record df :
  prepare_features_from_raw rt cols sc now record = Ok df ->
  exists f e,
    extract rt now record = Ok f /\ engineer f = Ok e /\
    scale_frame sc (unscaled_frame cols f e (one_hot_items f)) = Ok df.
Proof.
  unfold prepare_features_from_raw. intros H.
  apply bind_Ok in H as (f & Hf & H). apply bind_Ok in H as (e & He & H).
  exists f, e. auto.
Qed.

(** C1. Whatever the record holds, the frame that [prepare_features_from_raw]
    returns has the columns of [TRAIN_COLUMNS], in that order: none is
    added, removed or moved. *)
Theorem prepare_columns_are_train_columns rt TRAIN_COLUMNS SCALER now record df :
  prepare_features_from_raw rt TRAIN_COLUMNS SCALER now record = Ok df ->
  columns df = TRAIN_COLUMNS.
Proof.
  intros H. apply prepare_inv in H as (f & e & _ & _ & H).
  apply columns_scale_frame in H. rewrite H. apply columns_make_frame.
Qed.

Lemma prepare_columns_witness :
  exists df,
    prepare_features_from_raw Demo.runtime Demo.TRAIN_COLUMNS Demo.SCALER
      Demo.noon Demo.scenario = Ok df /\
    columns df = Demo.TRAIN_COLUMNS.
Proof.
  eexists. split; [vm_compute; reflexivity |].
  apply (prepare_columns_are_train_columns Demo.runtime Demo.TRAIN_COLUMNS Demo.SCALER
           Demo.noon Demo.scenario).
  vm_compute. reflexivity.
Defined.

(** ** Extraction of the fields and their defaults *)

Lemma get_absent d k dflt : dict_get d k = None -> get d k dflt = dflt.
Proof. unfold get. now intros ->. Qed.


(** What each local variable of lines 19-29 holds when no conversion raised. *)
Lemma extract_inv rt now d f :
  extract rt now (PDict d) = Ok f ->
  py_float rt (get d "amount" (PFloat 0)) = Ok (amount f) /\
  category f = py_str rt (get d "category" (PStr "Other")) /\
  merchant f = py_str rt (get d "merchant" (PStr "Unknown")) /\
  match dict_get d "timestamp" with
  | Some v => pd_to_datetime rt now v
  | None => Ok (Timestamp now)
  end = Ok (timestamp f) /\
  location f = py_str rt (get d "location" (PStr "Unknown")) /\
  device f = py_str rt (get d "device" (PStr "Unknown")) /\
  py_int rt (get d "card_present" (PInt 0)) = Ok (card_present f) /\
  py_int rt (get d "cvv_present" (PInt 0)) = Ok (cvv_present f) /\
  py_int rt (get d "card_bin" (PInt 0)) = Ok (card_bin f) /\
  ip_address f = py_str rt (get d "ip_address" (PStr "0.0.0.0")) /\
  py_float rt (get d "chargeback_history" (PInt 0)) = Ok (chargeback_history f).
Proof.
  unfold extract. simpl. intros H.
  apply bind_Ok in H as (a & Ha & H).
  apply bind_Ok in H as (t & Ht & H).
  apply bind_Ok in H as (cp & Hcp & H).
  apply bind_Ok in H as (cv & Hcv & H).
  apply bind_Ok in H as (cb & Hcb & H).
  apply bind_Ok in H as (ch & Hch & H).
  injection H as <-. simpl. repeat split; assumption.
Qed.

(** A record with no field at all: every local variable is its default. *)
Lemma extract_empty rt now :
  extract rt now (PDict []) =
  Ok (Fields 0 "Other" "Unknown" (Timestamp now) "Unknown" "Unknown" 0 0 0 "0.0.0.0" 0).
Proof. reflexivity. Qed.

(** C6. Each field that the record does not hold takes its declared
    default: amount 0.0, category "Other", merchant "Unknown", timestamp the
    current time, location "Unknown", device "Unknown", card_present 0,
    cvv_present 0, card_bin 0, ip_address "0.0.0.0", chargeback_history 0. *)
Theorem extract_defaults rt now d f :
  extract rt now (PDict d) = Ok f ->
  (dict_get d "amount" = None -> amount f = 0%float) /\
  (dict_get d "category" = None -> category f = "Other") /\
  (dict_get d "merchant" = None -> merchant f = "Unknown") /\
  (dict_get d "timestamp" = None -> timestamp f = Timestamp now) /\
  (dict_get d "location" = None -> location f = "Unknown") /\
  (dict_get d "device" = None -> device f = "Unknown") /\
  (dict_get d "card_present" = None -> card_present f = 0) /\
  (dict_get d "cvv_present" = None -> cvv_present f = 0) /\
  (dict_get d "card_bin" = None -> card_bin f = 0) /\
  (dict_get d "ip_address" = None -> ip_address f = "0.0.0.0") /\
  (dict_get d "chargeback_history" = None -> chargeback_history f = 0%float).
Proof.
  intros H.
  apply extract_inv in H
    as (Ha & Hc & Hm & Ht & Hl & Hd & Hcp & Hcv & Hcb & Hip & Hch).
  repeat split; intros Habs.
  - rewrite (get_absent _ _ _ Habs) in Ha. simpl in Ha. congruence.
  - now rewrite Hc, (get_absent _ _ _ Habs).
  - now rewrite Hm, (get_absent _ _ _ Habs).
  - rewrite Habs in Ht. congruence.
  - now rewrite Hl, (get_absent _ _ _ Habs).
  - now rewrite Hd, (get_absent _ _ _ Habs).
  - rewrite (get_absent _ _ _ Habs) in Hcp. simpl in Hcp. congruence.
  - rewrite (get_absent _ _ _ Habs) in Hcv. simpl in Hcv. congruence.
  - rewrite (get_absent _ _ _ Habs) in Hcb. simpl in Hcb. congruence.
  - now rewrite Hip, (get_absent _ _ _ Habs).
  - rewrite (get_absent _ _ _ Habs) in Hch.
    change (py_float rt (PInt 0)) with (Ok (A := float) 0%float) in Hch. congruence.
Qed.

(** The record that holds only an amount and a device: the nine other
    fields are their defaults. *)
Lemma extract_defaults_witness :
  exists f,
    extract Demo.runtime Demo.evening
      (PDict [("amount", PFloat 12.5); ("device", PStr "POS")]) = Ok f /\
    amount f = 12.5%float /\ device f = "POS" /\
    category f = "Other" /\ merchant f = "Unknown" /\
    timestamp f = Timestamp Demo.evening /\ location f = "Unknown" /\
    card_present f = 0 /\ cvv_present f = 0 /\ card_bin f = 0 /\
    ip_address f = "0.0.0.0" /\ chargeback_history f = 0%float.
Proof.
  destruct (extract_defaults Demo.runtime Demo.evening
              [("amount", PFloat 12.5); ("device", PStr "POS")]
              (Fields 12.5 "Other" "Unknown" (Timestamp Demo.evening) "Unknown" "POS"
                 0 0 0 "0.0.0.0" 0) eq_refl)
    as (_ & Hc & Hm & Ht & Hl & _ & Hcp & Hcv & Hcb & Hip & Hch).
  eexists. split; [reflexivity |].
  split; [reflexivity |]. split; [reflexivity |].
  split; [exact (Hc eq_refl) |]. split; [exact (Hm eq_refl) |].
  split; [exact (Ht eq_refl) |]. split; [exact (Hl eq_refl) |].
  split; [exact (Hcp eq_refl) |]. split; [exact (Hcv eq_refl) |].
  split; [exact (Hcb eq_refl) |]. split; [exact (Hip eq_refl) | exact (Hch eq_refl)].
Defined.

(** ** The dict [row]: its keys never change, its cells are the last
    assignment *)

Lemma set_if_present_lookup name v (row : gmap string num) k :
  set_if_present name v row !! k =
  if String.eqb name k
  then match row !! k with Some _ => Some v | None => None end
  else row !! k.
Proof.
  unfold set_if_present. destruct (String.eqb_spec name k) as [-> | Hne].
  - destruct (row !! k) eqn:Hk; [apply lookup_insert_eq | exact Hk].
  - destruct (row !! name); [now apply lookup_insert_ne | reflexivity].
Qed.

Lemma row_init_from_lookup cols : forall (acc : gmap string num) k,
  foldl (fun row col => <[col := NFloat 0]> row) acc cols !! k =
  if bool_decide (k ∈ cols) then Some (NFloat 0) else acc !! k.
Proof.
  induction cols as [| c cs IH]; intros acc k.
  - case_bool_decide as Hin; [| reflexivity]. now apply elem_of_nil in Hin.
  - cbn [foldl]. rewrite IH.
    destruct (bool_decide_reflect (k ∈ cs)) as [Hin | Hnin].
    + rewrite bool_decide_eq_true_2 by set_solver. reflexivity.
    + destruct (decide (c = k)) as [-> | Hne].
      * rewrite lookup_insert_eq, bool_decide_eq_true_2 by set_solver. reflexivity.
      * rewrite lookup_insert_ne by assumption.
        rewrite bool_decide_eq_false_2; [reflexivity |].
        rewrite elem_of_cons. intros [Heq | Hin]; congruence.
Qed.

Lemma row_init_lookup cols k :
  row_init cols !! k = if bool_decide (k ∈ cols) then Some (NFloat 0) else None.
Proof. unfold row_init. rewrite row_init_from_lookup. now rewrite lookup_empty. Qed.

(** A run of guarded assignments: a key keeps being a key, and holds the
    last value assigned to it. *)
Lemma assign_all_lookup l : forall (row : gmap string num) k,
  foldl (fun row nv => set_if_present (fst nv) (snd nv) row) row l !! k =
  match row !! k with
  | Some v0 => Some (match assoc_last l k with Some w => w | None => v0 end)
  | None => None
  end.
Proof.
  induction l as [| [k' v] l IH]; intros row k; simpl.
  - now destruct (row !! k).
  - rewrite IH, set_if_present_lookup.
    destruct (String.eqb k' k), (row !! k), (assoc_last l k); reflexivity.
Qed.

Lemma build_row_assignments cols f e items :
  build_row cols f e items =
  foldl (fun row nv => set_if_present (fst nv) (snd nv) row)
    (row_init cols) (assignments f e items).
Proof.
  unfold build_row, assignments, one_hot, fill_binary, fill_numeric.
  rewrite foldl_app. simpl foldl at 2. simpl foldl at 2.
  generalize
    (set_if_present "cvv_present" (NInt (cvv_present f))
       (set_if_present "card_present" (NInt (card_present f))
          (set_if_present "card_info_match" (NFloat (Z_to_float (card_info_match e)))
             (set_if_present "is_high_amount" (NFloat (Z_to_float (is_high_amount e)))
                (set_if_present "transaction_day"
                   (NFloat (num_to_float (transaction_day e)))
                   (set_if_present "transaction_hour"
                      (NFloat (num_to_float (transaction_hour e)))
                      (set_if_present "chargeback_history"
                         (NFloat (chargeback_history f))
                         (set_if_present "amount" (NFloat (amount f))
                            (row_init cols))))))))).
  induction items as [| pv items IH]; intros row; simpl; [reflexivity | apply IH].
Qed.

Lemma build_row_lookup cols f e items k :
  build_row cols f e items !! k =
  if bool_decide (k ∈ cols) then Some (cell f e items k) else None.
Proof.
  rewrite build_row_assignments, assign_all_lookup, row_init_lookup.
  unfold cell. now destruct (bool_decide (k ∈ cols)).
Qed.

Lemma frame_get_make_frame (row : gmap string num) cols k :
  frame_get (make_frame row cols) k =
  if bool_decide (k ∈ cols)
  then Some (match row !! k with Some v => v | None => NFloat nan end)
  else None.
Proof.
  unfold make_frame. induction cols as [| c cs IH].
  - case_bool_decide as Hin; [| reflexivity]. now apply elem_of_nil in Hin.
  - cbn [map frame_get]. destruct (String.eqb_spec c k) as [-> | Hne].
    + rewrite bool_decide_eq_true_2 by set_solver. now destruct (row !! k).
    + rewrite IH. destruct (bool_decide_reflect (k ∈ cs)) as [Hin | Hnin].
      * rewrite bool_decide_eq_true_2 by set_solver. reflexivity.
      * rewrite bool_decide_eq_false_2; [reflexivity |].
        rewrite elem_of_cons. intros [Heq | Hin]; congruence.
Qed.

(** The frame before scaling, cell by cell. *)
Lemma frame_get_unscaled cols f e items k :
  frame_get (unscaled_frame cols f e items) k =
  if bool_decide (k ∈ cols) then Some (cell f e items k) else None.
Proof.
  unfold unscaled_frame. rewrite frame_get_make_frame, build_row_lookup.
  now destruct (bool_decide (k ∈ cols)).
Qed.

Lemma unscaled_frame_cells cols f e items :
  unscaled_frame cols f e items = map (fun c => (c, cell f e items c)) cols.
Proof.
  unfold unscaled_frame, make_frame. apply map_ext_in. intros c Hc.
  rewrite build_row_lookup, bool_decide_eq_true_2; [reflexivity |].
  now apply list_elem_of_In.
Qed.

(** No one-hot column of the four categorical fields has the name of a
    numeric or binary column, so these eight cells are what lines 41-56
    assigned. *)
Lemma cell_numeric f e :
  cell f e (one_hot_items f) "amount" = NFloat (amount f) /\
  cell f e (one_hot_items f) "chargeback_history" = NFloat (chargeback_history f) /\
  cell f e (one_hot_items f) "transaction_hour" =
    NFloat (num_to_float (transaction_hour e)) /\
  cell f e (one_hot_items f) "transaction_day" =
    NFloat (num_to_float (transaction_day e)) /\
  cell f e (one_hot_items f) "is_high_amount" = NFloat (Z_to_float (is_high_amount e)) /\
  cell f e (one_hot_items f) "card_info_match" =
    NFloat (Z_to_float (card_info_match e)) /\
  cell f e (one_hot_items f) "card_present" = NInt (card_present f) /\
  cell f e (one_hot_items f) "cvv_present" = NInt (cvv_present f).
Proof. repeat split; reflexivity. Qed.

(** ** Engineered features *)




(** ** Scaling: the scaler's columns, and only them *)

Lemma frame_get_frame_set c v df k :
  frame_get (frame_set c v df) k =
  if String.eqb c k
  then match frame_get df k with Some _ => Some v | None => None end
  else frame_get df k.
Proof.
  unfold frame_set. induction df as [| [c' v'] df IH]; simpl.
  - now destruct (String.eqb c k).
  - destruct (String.eqb_spec c' c) as [-> | Hc]; simpl.
    + destruct (String.eqb_spec c k) as [-> | Hk]; [reflexivity |].
      rewrite IH. now destruct (String.eqb_spec c k).
    + destruct (String.eqb_spec c' k) as [-> | Hk].
      * destruct (String.eqb_spec c k) as [-> | ?]; [contradiction | reflexivity].
      * exact IH.
Qed.

(** A column that is not assigned keeps its cell. *)
Lemma frame_assign_other names : forall df ys k,
  k ∉ names -> frame_get (frame_assign df names ys) k = frame_get df k.
Proof.
  induction names as [| c cs IH]; intros df ys k Hk; simpl; [reflexivity |].
  destruct ys as [| y ys]; [reflexivity |].
  apply not_elem_of_cons in Hk as [Hne Hk].
  rewrite IH by assumption. rewrite frame_get_frame_set.
  destruct (String.eqb_spec c k); [congruence | reflexivity].
Qed.

(** The j-th assigned column holds the j-th value. *)
Lemma frame_assign_lookup names : forall df ys j k y,
  NoDup names -> names !! j = Some k -> ys !! j = Some y ->
  frame_get (frame_assign df names ys) k =
  match frame_get df k with Some _ => Some (NFloat y) | None => None end.
Proof.
  induction names as [| c cs IH]; intros df ys j k y Hnd Hj Hy; [discriminate |].
  apply NoDup_cons in Hnd as [Hc Hnd].
  destruct ys as [| y0 ys]; [now destruct j |].
  destruct j as [| j]; simpl in *.
  - injection Hj as ->. injection Hy as ->.
    rewrite frame_assign_other by assumption.
    rewrite frame_get_frame_set. now rewrite String.eqb_refl.
  - rewrite (IH _ _ j k y) by assumption.
    rewrite frame_get_frame_set.
    destruct (String.eqb_spec c k) as [-> | Hne]; [| reflexivity].
    exfalso. apply Hc. eapply list_elem_of_lookup_2. eassumption.
Qed.

Lemma frame_select_inv df names : forall X,
  frame_select df names = Ok X ->
  Forall2 (fun k x => frame_get df k = Some x) names X.
Proof.
  induction names as [| c cs IH]; intros X H; simpl in H.
  - injection H as <-. constructor.
  - destruct (frame_get df c) as [x |] eqn:Hc; [| discriminate].
    apply bind_Ok in H as (xs & Hxs & H). injection H as <-.
    constructor; auto.
Qed.

Lemma transform_inv sc X Y :
  transform sc X = Ok Y ->
  length X = length (mean_ sc) /\ length X = length (scale_ sc) /\
  existsb is_infinity (map num_to_float X) = false /\
  Y = zip_with (fun x ms => standardize x (fst ms) (snd ms)) (map num_to_float X)
        (zip (mean_ sc) (scale_ sc)).
Proof.
  unfold transform. rewrite length_map.
  destruct (Nat.eqb_spec (length X) (length (mean_ sc))) as [Hm | ?];
    [| discriminate].
  destruct (Nat.eqb_spec (length X) (length (scale_ sc))) as [Hs | ?];
    [| discriminate].
  simpl. destruct (existsb is_infinity (map num_to_float X)); [discriminate |].
  intros H. injection H as <-. auto.
Qed.

Lemma transform_lookup sc X Y j x :
  transform sc X = Ok Y -> X !! j = Some x ->
  exists m s,
    mean_ sc !! j = Some m /\ scale_ sc !! j = Some s /\
    Y !! j = Some (standardize (num_to_float x) m s).
Proof.
  intros H Hx. apply transform_inv in H as (Hm & Hs & _ & ->).
  pose proof (lookup_lt_Some _ _ _ Hx) as Hlt.
  destruct (lookup_lt_is_Some_2 (mean_ sc) j) as [m Hmj]; [lia |].
  destruct (lookup_lt_is_Some_2 (scale_ sc) j) as [s Hsj]; [lia |].
  exists m, s. repeat split; try assumption.
  apply lookup_zip_with_Some. exists (num_to_float x), (m, s).
  repeat split.
  - now rewrite list_lookup_fmap, Hx.
  - now apply lookup_zip_Some.
Qed.

(** What [scale_frame] does to each column, by name. *)
Lemma scale_frame_spec sc names pre df :
  feature_names_in_ sc = Some names -> NoDup names ->
  scale_frame sc pre = Ok df ->
  (forall j c, names !! j = Some c ->
     exists x m s,
       frame_get pre c = Some x /\ mean_ sc !! j = Some m /\ scale_ sc !! j = Some s /\
       frame_get df c = Some (NFloat (standardize (num_to_float x) m s))) /\
  (forall c, c ∉ names -> frame_get df c = frame_get pre c).
Proof.
  unfold scale_frame. intros -> Hnd H.
  apply bind_Ok in H as (X & HX & H). apply bind_Ok in H as (Y & HY & H).
  injection H as <-. apply frame_select_inv in HX. split.
  - intros j c Hj.
    destruct (Forall2_lookup_l _ _ _ _ _ HX Hj) as (x & Hxj & Hx).
    destruct (transform_lookup _ _ _ _ _ HY Hxj) as (m & s & Hm & Hs & Hy).
    exists x, m, s. repeat split; try assumption.
    rewrite (frame_assign_lookup names pre Y j c _ Hnd Hj Hy). now rewrite Hx.
  - intros c Hc. now apply frame_assign_other.
Qed.

(** C7. The frame that is returned is the frame of line 70 in which each
    column [feature_names_in_] of the scaler holds [(x - mean) / scale] of its
    cell [x], with the mean and the scale fitted for that column; every
    other column holds the cell it had before scaling.  A scaler without
    [feature_names_in_] scales no column. *)
Theorem scaler_scales_its_columns_only rt TRAIN_COLUMNS SCALER now record df :
  prepare_features_from_raw rt TRAIN_COLUMNS SCALER now record = Ok df ->
  exists f e,
    extract rt now record = Ok f /\ engineer f = Ok e /\
    let pre := unscaled_frame TRAIN_COLUMNS f e (one_hot_items f) in
    match feature_names_in_ SCALER with
    | None => df = pre
    | Some names =>
        NoDup names ->
        (forall j c, names !! j = Some c ->
           exists x m s,
             frame_get pre c = Some x /\
             mean_ SCALER !! j = Some m /\ scale_ SCALER !! j = Some s /\
             frame_get df c = Some (NFloat ((num_to_float x - m) / s)%float)) /\
        (forall c, c ∉ names -> frame_get df c = frame_get pre c)
    end.
Proof.
  intros H. apply prepare_inv in H as (f & e & Hf & He & Hscale).
  exists f, e. split; [assumption |]. split; [assumption |]. cbv zeta.
  destruct (feature_names_in_ SCALER) as [names |] eqn:Hnames.
  - intros Hnd.
    destruct (scale_frame_spec SCALER names _ df Hnames Hnd Hscale)
      as [Hscaled Hother].
    split; [| exact Hother].
    intros j c Hj. destruct (Hscaled j c Hj) as (x & m & s & Hx & Hm & Hs & Hdf).
    exists x, m, s. unfold standardize in Hdf. auto.
  - unfold scale_frame in Hscale. rewrite Hnames in Hscale. congruence.
Qed.

(** The scenario of the specification: the amount 350 becomes
    (350 - 250) / 100 = 1.0, the column card_present, which the scaler was
    not fitted on, keeps the int 1. *)
Lemma scaler_scales_witness :
  exists df,
    prepare_features_from_raw Demo.runtime Demo.TRAIN_COLUMNS Demo.SCALER
      Demo.noon Demo.scenario = Ok df /\
    frame_get df "amount" = Some (NFloat 1) /\
    frame_get df "card_present" = Some (NInt 1).
Proof.
  eexists. split; [vm_compute; reflexivity |].
  match goal with
  | |- frame_get ?df _ = _ /\ _ =>
      destruct (scaler_scales_its_columns_only Demo.runtime Demo.TRAIN_COLUMNS
                  Demo.SCALER Demo.noon Demo.scenario df eq_refl)
        as (f & e & Hf & He & H)
  end.
  vm_compute in Hf. injection Hf as <-. vm_compute in He. injection He as <-.
  cbv zeta in H. simpl feature_names_in_ in H.
  destruct H as [Hscaled Hother].
  - apply (bool_decide_unpack _). vm_compute. exact I.
  - split.
    + destruct (Hscaled 0%nat "amount" eq_refl) as (x & m & s & Hx & Hm & Hs & Hdf).
      vm_compute in Hx, Hm, Hs. injection Hx as <-. injection Hm as <-.
      injection Hs as <-. exact Hdf.
    + rewrite Hother; [reflexivity |].
      rewrite !elem_of_cons, elem_of_nil. intuition discriminate.
Defined.

(** ** Categorical values that the registry does not know *)

Lemma prefix_split p : forall c,
  String.prefix p c = true -> exists rest, c = p +:+ rest.
Proof.
  induction p as [| a p IH]; intros c H.
  - exists c. reflexivity.
  - destruct c as [| b c]; simpl in H; [discriminate |].
    destruct (ascii_dec a b) as [-> | ?]; [| discriminate].
    destruct (IH c H) as [rest ->]. exists rest. reflexivity.
Qed.

Lemma assoc_last_app l1 l2 k :
  assoc_last (l1 ++ l2) k =
  match assoc_last l2 k with
  | Some w => Some w
  | None => assoc_last l1 k
  end.
Proof.
  induction l1 as [| [k' v] l1 IH]; simpl.
  - now destruct (assoc_last l2 k).
  - rewrite IH. now destruct (assoc_last l2 k).
Qed.

Lemma assoc_last_without_field prefix k items :
  (forall value, In (prefix, value) items -> one_hot_column prefix value <> k) ->
  assoc_last (map (fun pv => (one_hot_column (fst pv) (snd pv), NFloat 1)) items) k =
  assoc_last
    (map (fun pv => (one_hot_column (fst pv) (snd pv), NFloat 1))
       (without_field prefix items)) k.
Proof.
  induction items as [| [p v] items IH]; intros H; [reflexivity |].
  assert (IH' := IH (fun value Hin => H value (or_intror Hin))).
  unfold without_field in *. cbn [map List.filter assoc_last fst snd].
  destruct (String.eqb_spec p prefix) as [-> | Hne]; cbn [negb map assoc_last fst snd].
  - rewrite <- IH'.
    destruct (String.eqb_spec (one_hot_column prefix v) k) as [Heq | _].
    + exfalso. apply (H v); [now left | assumption].
    + now destruct (assoc_last _ k).
  - now rewrite IH'.
Qed.

Lemma cell_without_field f e items prefix k :
  (forall value, In (prefix, value) items -> one_hot_column prefix value <> k) ->
  cell f e items k = cell f e (without_field prefix items) k.
Proof.
  intros H. unfold cell, assignments.
  rewrite !assoc_last_app, (assoc_last_without_field prefix k items H).
  reflexivity.
Qed.

(** When the value of a categorical field has no column, that field's turn
    of the one-hot loop changes nothing. *)
Lemma unscaled_frame_without_field cols f e items prefix :
  (forall value, In (prefix, value) items -> one_hot_column prefix value ∉ cols) ->
  unscaled_frame cols f e items = unscaled_frame cols f e (without_field prefix items).
Proof.
  intros H. rewrite !unscaled_frame_cells. apply map_ext_in. intros c Hc.
  f_equal. apply cell_without_field. intros value Hin Heq.
  apply (H value Hin). rewrite Heq. now apply list_elem_of_In.
Qed.

(** The cell of a column named [prefix_...], when the value of the field
    [prefix] has no column: nothing was assigned to it. *)
Lemma cell_of_field_zero f e prefix value c :
  In (prefix, value) (one_hot_items f) ->
  String.prefix (prefix +:+ "_") c = true ->
  one_hot_column prefix value <> c ->
  cell f e (one_hot_items f) c = NFloat 0.
Proof.
  intros Hin Hpre Hne. apply prefix_split in Hpre as [rest ->].
  unfold one_hot_items in Hin. simpl in Hin.
  destruct Hin as [Hin | [Hin | [Hin | [Hin | []]]]];
    injection Hin as <- <-; unfold cell, assignments, one_hot_items;
    cbv [one_hot_column String.append] in Hne |- *; cbn.
  - destruct (String.eqb_spec (merchant f) rest) as [Heq | _]; [| reflexivity].
    rewrite Heq in Hne. congruence.
  - destruct (String.eqb_spec (category f) rest) as [Heq | _]; [| reflexivity].
    rewrite Heq in Hne. congruence.
  - destruct (String.eqb_spec (location f) rest) as [Heq | _]; [| reflexivity].
    rewrite Heq in Hne. congruence.
  - destruct (String.eqb_spec (device f) rest) as [Heq | _]; [| reflexivity].
    rewrite Heq in Hne. congruence.
Qed.

(** Each categorical field has one item in the one-hot loop. *)
Lemma one_hot_items_functional f prefix v v' :
  In (prefix, v) (one_hot_items f) -> In (prefix, v') (one_hot_items f) -> v = v'.
Proof.
  unfold one_hot_items. simpl.
  intros [H | [H | [H | [H | []]]]] [H' | [H' | [H' | [H' | []]]]]; congruence.
Qed.

Lemma scale_frame_other sc pre df c :
  scale_frame sc pre = Ok df ->
  (forall names, feature_names_in_ sc = Some names -> c ∉ names) ->
  frame_get df c = frame_get pre c.
Proof.
  unfold scale_frame. intros H Hc.
  destruct (feature_names_in_ sc) as [names |]; [| congruence].
  apply bind_Ok in H as (X & _ & H). apply bind_Ok in H as (Y & _ & H).
  injection H as <-. apply frame_assign_other. now apply Hc.
Qed.

(** C4. When the value of a categorical field has no column
    ["{field}_{value}"] in [TRAIN_COLUMNS], the aligner returns what it
    returns with that field left out of the one-hot loop: no column is set
    for the value and no other column changes.  In the frame every column of
    that field, [{field}_...], is then 0.0 (the scaler being fitted on none
    of them). *)
Theorem unknown_category_is_dropped rt TRAIN_COLUMNS SCALER now d f e prefix value :
  extract rt now (PDict d) = Ok f ->
  engineer f = Ok e ->
  In (prefix, value) (one_hot_items f) ->
  one_hot_column prefix value ∉ TRAIN_COLUMNS ->
  (forall names c, feature_names_in_ SCALER = Some names -> c ∈ names ->
     String.prefix (prefix +:+ "_") c = false) ->
  prepare_features_from_raw rt TRAIN_COLUMNS SCALER now (PDict d) =
    finish TRAIN_COLUMNS SCALER f e (without_field prefix (one_hot_items f)) /\
  forall df c,
    prepare_features_from_raw rt TRAIN_COLUMNS SCALER now (PDict d) = Ok df ->
    c ∈ TRAIN_COLUMNS -> String.prefix (prefix +:+ "_") c = true ->
    frame_get df c = Some (NFloat 0).
Proof.
  intros Hf He Hin Hcol Hsc.
  assert (Hall : forall v, In (prefix, v) (one_hot_items f) ->
                           one_hot_column prefix v ∉ TRAIN_COLUMNS).
  { intros v Hv. now rewrite (one_hot_items_functional f prefix v value Hv Hin). }
  assert (Hprep : prepare_features_from_raw rt TRAIN_COLUMNS SCALER now (PDict d) =
                  finish TRAIN_COLUMNS SCALER f e (one_hot_items f)).
  { unfold prepare_features_from_raw. rewrite Hf. simpl. now rewrite He. }
  split.
  - rewrite Hprep. unfold finish.
    now rewrite (unscaled_frame_without_field _ _ _ _ prefix Hall).
  - intros df c Hdf Hc Hpre. rewrite Hprep in Hdf. unfold finish in Hdf.
    rewrite (scale_frame_other _ _ _ c Hdf).
    + rewrite frame_get_unscaled, bool_decide_eq_true_2 by assumption.
      f_equal. apply (cell_of_field_zero f e prefix value); try assumption.
      intros Heq. apply Hcol. now rewrite Heq.
    + intros names Hnames Hcn. specialize (Hsc names c Hnames Hcn). congruence.
Qed.

(** A merchant never seen in training: the two merchant columns are 0.0. *)
Lemma unknown_category_witness :
  exists df,
    prepare_features_from_raw Demo.runtime Demo.TRAIN_COLUMNS Demo.SCALER Demo.noon
      (PDict [("merchant", PStr "ZZZNonexistent"); ("amount", PInt 20)]) = Ok df /\
    frame_get df "merchant_ShopSmart" = Some (NFloat 0) /\
    frame_get df "merchant_Unknown" = Some (NFloat 0).
Proof.
  eexists. split; [vm_compute; reflexivity |].
  match goal with
  | |- frame_get ?df _ = _ /\ _ =>
      destruct (unknown_category_is_dropped Demo.runtime Demo.TRAIN_COLUMNS Demo.SCALER
                  Demo.noon
                  [("merchant", PStr "ZZZNonexistent"); ("amount", PInt 20)]
                  (Fields 20 "Other" "ZZZNonexistent" (Timestamp Demo.noon)
                     "Unknown" "Unknown" 0 0 0 "0.0.0.0" 0)
                  (Engineered (NInt 12) (NInt 10) 0 0)
                  "merchant" "ZZZNonexistent" eq_refl eq_refl)
        as [_ Hzero];
      [ left; reflexivity
      | apply (bool_decide_unpack _); vm_compute; exact I
      | intros names c Hnames Hc; injection Hnames as <-;
        repeat (apply elem_of_cons in Hc as [-> | Hc]; [reflexivity |]);
        now apply elem_of_nil in Hc
      | split; apply (Hzero df); first
          [ reflexivity | apply (bool_decide_unpack _); vm_compute; exact I ] ]
  end.
Defined.

(** ** Determinism, and the part of the clock *)

(** The frame depends on the extracted fields only through the amount, the
    chargeback history, the two card flags and the four categorical texts. *)
Lemma finish_ignores_timestamp cols sc e a c m t1 t2 l dv cp cv cb ip ch :
  finish cols sc (Fields a c m t1 l dv cp cv cb ip ch) e
    (one_hot_items (Fields a c m t1 l dv cp cv cb ip ch)) =
  finish cols sc (Fields a c m t2 l dv cp cv cb ip ch) e
    (one_hot_items (Fields a c m t2 l dv cp cv cb ip ch)).
Proof.
  unfold finish, unscaled_frame, build_row, fill_binary, fill_numeric, one_hot_items.
  cbn [amount chargeback_history card_present cvv_present
       merchant category location device].
  reflexivity.
Qed.

(** The clock reaches the frame through the timestamp of line 22 only, and
    through its hour and its day of the month only. *)
Lemma prepare_same_reading rt cols sc now1 now2 d r1 r2 :
  match dict_get d "timestamp" with
  | Some v => pd_to_datetime rt now1 v
  | None => Ok (Timestamp now1)
  end = r1 ->
  match dict_get d "timestamp" with
  | Some v => pd_to_datetime rt now2 v
  | None => Ok (Timestamp now2)
  end = r2 ->
  same_reading r1 r2 ->
  prepare_features_from_raw rt cols sc now1 (PDict d) =
  prepare_features_from_raw rt cols sc now2 (PDict d).
Proof.
  intros H1 H2 H. unfold prepare_features_from_raw, extract. cbn [get_method bind].
  destruct (py_float rt (get d "amount" (PFloat 0))) as [a |]; [| reflexivity].
  cbn [bind]. rewrite H1, H2. clear H1 H2.
  destruct r1 as [[t1 | |] | e1], r2 as [[t2 | |] | e2]; cbn [same_reading] in H;
    try discriminate H.
  - destruct H as [Hh Hd]. cbn [bind].
    destruct (py_int rt (get d "card_present" (PInt 0))) as [cp |]; [| reflexivity].
    cbn [bind].
    destruct (py_int rt (get d "cvv_present" (PInt 0))) as [cv |]; [| reflexivity].
    cbn [bind].
    destruct (py_int rt (get d "card_bin" (PInt 0))) as [cb |]; [| reflexivity].
    cbn [bind].
    destruct (py_float rt (get d "chargeback_history" (PInt 0))) as [ch |];
      [| reflexivity].
    cbn [bind]. unfold engineer. cbn [timestamp attr_hour attr_day bind].
    rewrite Hh, Hd. apply finish_ignores_timestamp.
  - reflexivity.
  - reflexivity.
  - injection H as ->. reflexivity.
Qed.

(** C3, as amended. For the same loaded assets, two calls on the same record
    return the same outcome whenever [pd.to_datetime] reads the timestamp of
    the record alike at the two calls: to the same outcome, or to two
    Timestamps of the same hour and day of the month.  When the record
    holds no timestamp, they do as soon as the two calls are made in the
    same hour of the same day of the month. *)
Theorem aligner_deterministic rt TRAIN_COLUMNS SCALER now1 now2 d :
  match dict_get d "timestamp" with
  | Some v => same_reading (pd_to_datetime rt now1 v) (pd_to_datetime rt now2 v)
  | None => hour now1 = hour now2 /\ day now1 = day now2
  end ->
  prepare_features_from_raw rt TRAIN_COLUMNS SCALER now1 (PDict d) =
  prepare_features_from_raw rt TRAIN_COLUMNS SCALER now2 (PDict d).
Proof.
  intros H.
  apply (prepare_same_reading rt TRAIN_COLUMNS SCALER now1 now2 d _ _ eq_refl eq_refl).
  destruct (dict_get d "timestamp") as [v |]; exact H.
Qed.

(** The scenario of the specification, whose timestamp is a date and a time
    of day, aligned at noon on the 10th and at 21:30 on the 11th. *)
Lemma aligner_deterministic_witness :
  prepare_features_from_raw Demo.runtime Demo.TRAIN_COLUMNS Demo.SCALER
    Demo.noon Demo.scenario =
  prepare_features_from_raw Demo.runtime Demo.TRAIN_COLUMNS Demo.SCALER
    Demo.evening Demo.scenario.
Proof.
  apply (aligner_deterministic Demo.runtime Demo.TRAIN_COLUMNS Demo.SCALER
           Demo.noon Demo.evening).
  vm_compute. split; reflexivity.
Defined.

(** The record with no field, aligned at noon on the 10th and at 21:30 on
    the 11th: the two frames differ in the hour and in the day. *)
Lemma aligner_depends_on_clock :
  ~ clock_independent Demo.runtime Demo.TRAIN_COLUMNS Demo.SCALER.
Proof.
  intros H. specialize (H Demo.noon Demo.evening (PDict [])).
  apply (f_equal (fun r =>
           match r with
           | Ok df =>
               match frame_get df "transaction_hour" with
               | Some (NFloat x) => (x =? 0)%float
               | _ => false
               end
           | Raise _ => false
           end)) in H.
  vm_compute in H. discriminate.
Qed.

(** A record whose timestamp is the str "now", aligned at the same two
    times: [pd.to_datetime] reads the clock for it, and the two frames
    differ in the hour. *)
Lemma relative_timestamp_depends_on_clock :
  prepare_features_from_raw Demo.runtime Demo.TRAIN_COLUMNS Demo.SCALER
    Demo.noon (PDict [("timestamp", PStr "now")]) <>
  prepare_features_from_raw Demo.runtime Demo.TRAIN_COLUMNS Demo.SCALER
    Demo.evening (PDict [("timestamp", PStr "now")]).
Proof.
  intros H.
  apply (f_equal (fun r =>
           match r with
           | Ok df =>
               match frame_get df "transaction_hour" with
               | Some (NFloat x) => (x =? 0)%float
               | _ => false
               end
           | Raise _ => false
           end)) in H.
  vm_compute in H. discriminate.
Qed.

(** ** What makes the aligner raise *)











Lemma demo_assets_fitted : fitted_on_numeric_cols Demo.TRAIN_COLUMNS Demo.SCALER.
Proof.
  repeat split. intros c Hc.
  unfold numeric_cols in Hc. unfold Demo.TRAIN_COLUMNS.
  rewrite !elem_of_cons in Hc. rewrite !elem_of_cons.
  destruct Hc as [-> | [-> | [-> | [-> | Hc]]]]; auto 8.
  now apply elem_of_nil in Hc.
Qed.



(** ** The prediction service *)

(** C8. A request whose model parameter, lowercased, is neither lr nor rf
    (a missing parameter is the empty string) is answered 400 with the
    unknown-model message, whatever its body, the clock and the classifiers
    are. *)
Theorem unknown_model_rejected rt TRAIN_COLUMNS SCALER lr_model rf_model now req :
  model_choice req <> "lr" ->
  model_choice req <> "rf" ->
  predict rt TRAIN_COLUMNS SCALER lr_model rf_model now req =
  Response (JError "Unknown model. Use ?model=lr or ?model=rf") 400.
Proof.
  intros Hlr Hrf. unfold predict, MODELS. cbn [models_get].
  destruct (String.eqb_spec "lr" (model_choice req)) as [Heq | _]; [congruence |].
  destruct (String.eqb_spec "rf" (model_choice req)) as [Heq | _]; [congruence |].
  reflexivity.
Qed.

(** [?model=XGBoost] with the complete body of the scenario, and a request
    with no model parameter and no body. *)
Lemma unknown_model_witness :
  predict Demo.runtime Demo.TRAIN_COLUMNS Demo.SCALER 0.25%float 0.75%float Demo.noon
    {| args_model := Some "XGBoost"; get_json := Some Demo.scenario |} =
  Response (JError "Unknown model. Use ?model=lr or ?model=rf") 400 /\
  predict Demo.runtime Demo.TRAIN_COLUMNS Demo.SCALER 0.25%float 0.75%float Demo.noon
    {| args_model := None; get_json := None |} =
  Response (JError "Unknown model. Use ?model=lr or ?model=rf") 400.
Proof.
  split;
    apply (unknown_model_rejected Demo.runtime Demo.TRAIN_COLUMNS Demo.SCALER
             0.25%float 0.75%float Demo.noon);
    discriminate.
Defined.

Lemma models_get_known rt (lr_model rf_model : Model rt) choice :
  choice = "lr" \/ choice = "rf" ->
  exists model, models_get rt (MODELS rt lr_model rf_model) choice = Some model.
Proof. intros [-> | ->]; eexists; reflexivity. Qed.

(** On a dict, line 57 lists the required fields that are not keys. *)
Lemma missing_fields_dict d ks :
  missing_fields (PDict d) ks =
  Ok (List.filter
        (fun k => match dict_get d k with Some _ => false | None => true end) ks).
Proof.
  induction ks as [| k ks IH]; [reflexivity |].
  cbn [missing_fields contains bind List.filter]. rewrite IH. cbn [bind].
  now destruct (dict_get d k).
Qed.

(** X1. A body that is a JSON object (or is absent, or is not JSON, or is
    falsy) and lacks a required field is answered 400, with the list of the
    fields it lacks; the aligner and the classifier are not called. *)
Lemma incomplete_record_rejected rt TRAIN_COLUMNS SCALER lr_model rf_model now req d :
  model_choice req = "lr" \/ model_choice req = "rf" ->
  request_data req = PDict d ->
  absent_fields d <> [] ->
  predict rt TRAIN_COLUMNS SCALER lr_model rf_model now req =
  Response (JError ("Missing fields: " +:+ repr_names (absent_fields d))) 400.
Proof.
  intros Hchoice Hdata Habs. unfold predict.
  destruct (models_get_known rt lr_model rf_model _ Hchoice) as [model ->].
  rewrite Hdata, missing_fields_dict. fold (absent_fields d).
  destruct (absent_fields d); [contradiction | reflexivity].
Qed.

Lemma absent_body_is_empty_record req :
  get_json req = None -> request_data req = PDict [] /\ absent_fields [] = required.
Proof. unfold request_data. intros ->. split; reflexivity. Qed.

Lemma incomplete_record_example :
  predict Demo.runtime Demo.TRAIN_COLUMNS Demo.SCALER 0.25%float 0.75%float Demo.noon
    {| args_model := Some "rf";
       get_json := Some (PDict [("category", PStr "Food"); ("card_bin", PInt 453212)]) |} =
  Response
    (JError "Missing fields: ['amount', 'merchant', 'timestamp', 'location', 'device', 'card_present', 'cvv_present', 'ip_address', 'chargeback_history']")
    400.
Proof.
  apply (incomplete_record_rejected Demo.runtime Demo.TRAIN_COLUMNS Demo.SCALER
           0.25%float 0.75%float Demo.noon _
           [("category", PStr "Food"); ("card_bin", PInt 453212)]).
  - now right.
  - reflexivity.
  - discriminate.
Defined.

(** C9 fails on a body that is a JSON number (or true): line 50 keeps it,
    being truthy, and ["amount" not in 5] raises [TypeError] outside the
    [try] of line 62, which Flask answers with status 500. *)
Theorem scalar_body_is_unhandled rt TRAIN_COLUMNS SCALER lr_model rf_model now :
  predict rt TRAIN_COLUMNS SCALER lr_model rf_model now
    {| args_model := Some "lr"; get_json := Some (PInt 5) |} =
  Unhandled (Exn TypeError "argument of type 'int' is not iterable") /\
  status_code
    (predict rt TRAIN_COLUMNS SCALER lr_model rf_model now
       {| args_model := Some "lr"; get_json := Some (PInt 5) |}) = 500.
Proof. split; reflexivity. Qed.

(** A prediction comes from the [try] of lines 62-65 having returned. *)
Lemma predict_prediction_inv rt TRAIN_COLUMNS SCALER lr_model rf_model now req
    name input p is_fraud status :
  predict rt TRAIN_COLUMNS SCALER lr_model rf_model now req =
    Response (JPrediction name input p is_fraud) status ->
  status = 200 /\ input = request_data req /\
  exists model prob,
    models_get rt (MODELS rt lr_model rf_model) (model_choice req) = Some model /\
    prepare_and_predict rt TRAIN_COLUMNS SCALER now model (request_data req) =
      Ok (prob, is_fraud) /\
    p = py_round prob 4.
Proof.
  unfold predict.
  destruct (models_get rt (MODELS rt lr_model rf_model) (model_choice req))
    as [model |]; [| discriminate].
  destruct (missing_fields (request_data req) required) as [[| k ks] | e];
    [| discriminate | discriminate].
  destruct (prepare_and_predict rt TRAIN_COLUMNS SCALER now model (request_data req))
    as [[prob fraud] | e] eqn:Hpp; [| discriminate].
  intros H. injection H as <- <- <- <- <-. eauto 8.
Qed.

(** C10, as amended. In a prediction (status 200), fraud_probability is the
    probability of the selected classifier rounded to 4 decimals, and
    predicted_is_fraud is 0 or 1, 1 exactly when that probability, before
    it is rounded, is at least 0.5. *)
Theorem prediction_fields rt TRAIN_COLUMNS SCALER lr_model rf_model now req
    name input p is_fraud status :
  predict rt TRAIN_COLUMNS SCALER lr_model rf_model now req =
    Response (JPrediction name input p is_fraud) status ->
  status = 200 /\
  exists model x_new prob,
    models_get rt (MODELS rt lr_model rf_model) (model_choice req) = Some model /\
    prepare_features_from_raw rt TRAIN_COLUMNS SCALER now (request_data req) =
      Ok x_new /\
    predict_proba1 rt model x_new = Ok prob /\
    p = py_round prob 4 /\
    is_fraud = (if (0.5 <=? prob)%float then 1 else 0) /\
    (is_fraud = 0 \/ is_fraud = 1).
Proof.
  intros H. apply predict_prediction_inv in H as (Hs & _ & model & prob & Hm & Hpp & Hp).
  split; [assumption |]. unfold prepare_and_predict in Hpp.
  apply bind_Ok in Hpp as (x_new & Hx & Hpp). apply bind_Ok in Hpp as (prob' & Hprob & Hpp).
  injection Hpp as -> <-.
  exists model, x_new, prob. repeat split; try assumption.
  destruct (0.5 <=? prob)%float; auto.
Qed.

(** The scenario of the specification, with a logistic regression that
    answers 0.25. *)
Lemma prediction_fields_witness :
  predict Demo.runtime Demo.TRAIN_COLUMNS Demo.SCALER 0.25%float 0.75%float Demo.noon
    {| args_model := Some "lr"; get_json := Some Demo.scenario |} =
    Response (JPrediction "logistic_regression" Demo.scenario 0.25 0) 200 /\
  exists prob : float,
    0.25%float = py_round prob 4 /\ 0 = (if (0.5 <=? prob)%float then 1 else 0).
Proof.
  split; [reflexivity |].
  destruct (prediction_fields Demo.runtime Demo.TRAIN_COLUMNS Demo.SCALER
              0.25%float 0.75%float Demo.noon
              {| args_model := Some "lr"; get_json := Some Demo.scenario |}
              "logistic_regression" Demo.scenario 0.25%float 0 200 eq_refl)
    as (_ & model & x_new & prob & _ & _ & _ & Hp & Hfraud & _).
  exists prob. split; assumption.
Defined.

(** A classifier that answers 0.5 - 2^-17: the response reports
    fraud_probability 0.5 and predicted_is_fraud 0. *)
Lemma rounded_probability_reaches_threshold :
  ~ decisions_match_reports Demo.runtime Demo.TRAIN_COLUMNS Demo.SCALER
      Demo.borderline Demo.borderline.
Proof.
  intros H.
  specialize (H Demo.noon {| args_model := Some "lr"; get_json := Some Demo.scenario |}).
  vm_compute in H. discriminate.
Qed.

(** * Further properties of the aligner *)

(** ** The keys of [row] *)

(** X2. Whatever is assigned, the keys of the dict [row] are the columns of
    [TRAIN_COLUMNS]: the guards [if name in row] add no key, and line 70
    finds every column in [row]. *)
Theorem row_keys_are_train_columns TRAIN_COLUMNS f e items :
  dom (build_row TRAIN_COLUMNS f e items) = list_to_set TRAIN_COLUMNS.
Proof.
  apply set_eq. intros k.
  rewrite elem_of_dom, build_row_lookup, elem_of_list_to_set.
  destruct (bool_decide_reflect (k ∈ TRAIN_COLUMNS)) as [Hin | Hnin]; split.
  - intros _. exact Hin.
  - intros _. eauto.
  - intros [v Hv]. discriminate.
  - contradiction.
Qed.

(** ** One-hot encoding of a known category *)

Lemma cell_of_field_one f e prefix value :
  In (prefix, value) (one_hot_items f) ->
  cell f e (one_hot_items f) (one_hot_column prefix value) = NFloat 1.
Proof.
  unfold one_hot_items. simpl.
  intros [Hin | [Hin | [Hin | [Hin | []]]]];
    injection Hin as <- <-; unfold cell, assignments, one_hot_items;
    cbv [one_hot_column String.append]; cbn; now rewrite String.eqb_refl.
Qed.

Lemma prefix_own_column f prefix value :
  In (prefix, value) (one_hot_items f) ->
  String.prefix (prefix +:+ "_") (one_hot_column prefix value) = true.
Proof.
  unfold one_hot_items. simpl.
  intros [Hin | [Hin | [Hin | [Hin | []]]]]; injection Hin as <- <-;
    cbv [one_hot_column String.append]; cbn.
  - now destruct (merchant f).
  - now destruct (category f).
  - now destruct (location f).
  - now destruct (device f).
Qed.

(** X3. When the value of a categorical field has its column
    ["{field}_{value}"] in [TRAIN_COLUMNS], the returned frame holds 1.0 in
    that column and 0.0 in every other column of the field (the scaler being
    fitted on none of them): the encoding is one-hot. *)
Theorem known_category_sets_its_column rt TRAIN_COLUMNS SCALER now d f df prefix value :
  extract rt now (PDict d) = Ok f ->
  prepare_features_from_raw rt TRAIN_COLUMNS SCALER now (PDict d) = Ok df ->
  In (prefix, value) (one_hot_items f) ->
  one_hot_column prefix value ∈ TRAIN_COLUMNS ->
  (forall names c, feature_names_in_ SCALER = Some names -> c ∈ names ->
     String.prefix (prefix +:+ "_") c = false) ->
  frame_get df (one_hot_column prefix value) = Some (NFloat 1) /\
  forall c,
    c ∈ TRAIN_COLUMNS -> String.prefix (prefix +:+ "_") c = true ->
    c <> one_hot_column prefix value ->
    frame_get df c = Some (NFloat 0).
Proof.
  intros Hf Hdf Hin Hcol Hsc.
  apply prepare_inv in Hdf as (f' & e & Hf' & He & Hscale).
  assert (f' = f) as -> by congruence.
  assert (Hns : forall c, String.prefix (prefix +:+ "_") c = true -> not_scaled SCALER c).
  { intros c Hc names Hnames Hcn. specialize (Hsc names c Hnames Hcn). congruence. }
  split.
  - rewrite (scale_frame_other _ _ _ _ Hscale)
      by (apply Hns; now apply (prefix_own_column f)).
    rewrite frame_get_unscaled, bool_decide_eq_true_2 by assumption.
    f_equal. now apply cell_of_field_one.
  - intros c Hc Hpre Hne.
    rewrite (scale_frame_other _ _ _ _ Hscale) by now apply Hns.
    rewrite frame_get_unscaled, bool_decide_eq_true_2 by assumption.
    f_equal. apply (cell_of_field_zero f e prefix value); auto.
Qed.

(** The scenario of the specification: the merchant ShopSmart. *)
Lemma known_category_witness :
  exists df,
    prepare_features_from_raw Demo.runtime Demo.TRAIN_COLUMNS Demo.SCALER Demo.noon
      Demo.scenario = Ok df /\
    frame_get df "merchant_ShopSmart" = Some (NFloat 1) /\
    frame_get df "merchant_Unknown" = Some (NFloat 0).
Proof.
  eexists. split; [vm_compute; reflexivity |].
  match goal with
  | |- frame_get ?df _ = _ /\ _ =>
      destruct (known_category_sets_its_column Demo.runtime Demo.TRAIN_COLUMNS
                  Demo.SCALER Demo.noon
                  [ ("amount", PFloat 350); ("category", PStr "Food");
                    ("merchant", PStr "ShopSmart");
                    ("timestamp", PStr "2025-10-10T14:30:00");
                    ("location", PStr "New York"); ("device", PStr "Mobile");
                    ("card_present", PInt 1); ("cvv_present", PInt 1);
                    ("card_bin", PInt 453212); ("ip_address", PStr "192.168.1.45");
                    ("chargeback_history", PInt 1) ]
                  (Fields 350 "Food" "ShopSmart" (Timestamp (Datetime 2025 10 10 14 30 0))
                     "New York" "Mobile" 1 1 453212 "192.168.1.45" 1)
                  df "merchant" "ShopSmart" eq_refl eq_refl)
        as [Hone Hzero];
      [ left; reflexivity
      | apply (bool_decide_unpack _); vm_compute; exact I
      | intros names c Hnames Hc; injection Hnames as <-;
        repeat (apply elem_of_cons in Hc as [-> | Hc]; [reflexivity |]);
        now apply elem_of_nil in Hc
      | split;
        [ exact Hone
        | apply Hzero;
          [ apply (bool_decide_unpack _); vm_compute; exact I
          | reflexivity | discriminate ] ] ]
  end.
Defined.

(** ** Columns that nothing is assigned to *)

Lemma assoc_last_none l k :
  (forall k' v, In (k', v) l -> k' <> k) -> assoc_last l k = None.
Proof.
  induction l as [| [k' v] l IH]; intros H; [reflexivity |].
  cbn [assoc_last]. rewrite IH by (intros k'' v'' Hin; apply (H k'' v''); now right).
  destruct (String.eqb_spec k' k) as [Heq | _]; [| reflexivity].
  exfalso. apply (H k' v); [now left | assumption].
Qed.

(** X4. A column of [TRAIN_COLUMNS] that is none of the eight named columns
    and is not the one-hot column of one of the record's four categorical
    values holds 0.0 in the returned frame, whatever the record holds (the
    scaler not being fitted on it).  So do the columns card_bin and
    has_notes of the training frame. *)
Theorem unlisted_columns_are_zero rt TRAIN_COLUMNS SCALER now d f df c :
  extract rt now (PDict d) = Ok f ->
  prepare_features_from_raw rt TRAIN_COLUMNS SCALER now (PDict d) = Ok df ->
  c ∈ TRAIN_COLUMNS ->
  ~ In c named_columns ->
  (forall prefix value, In (prefix, value) (one_hot_items f) ->
     c <> one_hot_column prefix value) ->
  not_scaled SCALER c ->
  frame_get df c = Some (NFloat 0).
Proof.
  intros Hf Hdf Hc Hnamed Hhot Hns.
  apply prepare_inv in Hdf as (f' & e & Hf' & He & Hscale).
  assert (f' = f) as -> by congruence.
  rewrite (scale_frame_other _ _ _ _ Hscale) by assumption.
  rewrite frame_get_unscaled, bool_decide_eq_true_2 by assumption.
  f_equal. unfold cell. rewrite assoc_last_none; [reflexivity |].
  intros k' v Hin -> . unfold assignments in Hin. apply in_app_or in Hin as [Hin | Hin].
  - apply Hnamed. unfold named_columns.
    simpl in Hin. simpl.
    repeat (destruct Hin as [Hin | Hin]; [injection Hin as <- _; auto 10 |]).
    contradiction.
  - apply in_map_iff in Hin as ([p v'] & Heq & Hin). injection Heq as Heq _.
    apply (Hhot p v' Hin). now symmetry.
Qed.

(** The scenario carries card_bin 453212: the column card_bin is 0.0. *)
Lemma unlisted_columns_witness :
  exists df,
    prepare_features_from_raw Demo.runtime Demo.TRAIN_COLUMNS Demo.SCALER Demo.noon
      Demo.scenario = Ok df /\
    frame_get df "card_bin" = Some (NFloat 0).
Proof.
  eexists. split; [vm_compute; reflexivity |].
  match goal with
  | |- frame_get ?df _ = _ =>
      apply (unlisted_columns_are_zero Demo.runtime Demo.TRAIN_COLUMNS Demo.SCALER
               Demo.noon
               [ ("amount", PFloat 350); ("category", PStr "Food");
                 ("merchant", PStr "ShopSmart");
                 ("timestamp", PStr "2025-10-10T14:30:00");
                 ("location", PStr "New York"); ("device", PStr "Mobile");
                 ("card_present", PInt 1); ("cvv_present", PInt 1);
                 ("card_bin", PInt 453212); ("ip_address", PStr "192.168.1.45");
                 ("chargeback_history", PInt 1) ]
               (Fields 350 "Food" "ShopSmart" (Timestamp (Datetime 2025 10 10 14 30 0))
                  "New York" "Mobile" 1 1 453212 "192.168.1.45" 1)
               df "card_bin" eq_refl eq_refl)
  end.
  - apply (bool_decide_unpack _). vm_compute. exact I.
  - unfold named_columns. simpl. intuition discriminate.
  - intros prefix value Hin. simpl in Hin.
    destruct Hin as [Hin | [Hin | [Hin | [Hin | []]]]]; injection Hin as <- <-;
      discriminate.
  - intros names Hnames. injection Hnames as <-.
    rewrite !elem_of_cons, elem_of_nil. intuition discriminate.
Defined.

(** ** From the record to the returned frame *)

Lemma numeric_cols_NoDup : NoDup numeric_cols.
Proof. apply (bool_decide_unpack _). vm_compute. exact I. Qed.

(** X5. With the assets [preprocess.py] writes, the returned frame holds in
    the column amount [(float(amount) - mean) / scale] for the first mean and
    scale of the scaler, in the column chargeback_history the same for the
    second ones, and in the columns card_present and cvv_present (when the
    training frame has them) the ints [int(card_present)] and
    [int(cvv_present)], unscaled; an absent field counts as its default. *)
Theorem raw_inputs_end_to_end rt TRAIN_COLUMNS SCALER now d df :
  fitted_on_numeric_cols TRAIN_COLUMNS SCALER ->
  prepare_features_from_raw rt TRAIN_COLUMNS SCALER now (PDict d) = Ok df ->
  exists a ch cp cv m0 s0 m1 s1,
    py_float rt (get d "amount" (PFloat 0)) = Ok a /\
    py_float rt (get d "chargeback_history" (PInt 0)) = Ok ch /\
    py_int rt (get d "card_present" (PInt 0)) = Ok cp /\
    py_int rt (get d "cvv_present" (PInt 0)) = Ok cv /\
    mean_ SCALER !! 0%nat = Some m0 /\ scale_ SCALER !! 0%nat = Some s0 /\
    mean_ SCALER !! 1%nat = Some m1 /\ scale_ SCALER !! 1%nat = Some s1 /\
    frame_get df "amount" = Some (NFloat ((a - m0) / s0)%float) /\
    frame_get df "chargeback_history" = Some (NFloat ((ch - m1) / s1)%float) /\
    ("card_present" ∈ TRAIN_COLUMNS -> frame_get df "card_present" = Some (NInt cp)) /\
    ("cvv_present" ∈ TRAIN_COLUMNS -> frame_get df "cvv_present" = Some (NInt cv)).
Proof.
  intros (Hnames & Hm & Hs & Hin) Hdf.
  apply prepare_inv in Hdf as (f & e & Hf & He & Hscale).
  apply extract_inv in Hf as (Ha & _ & _ & _ & _ & _ & Hcp & Hcv & _ & _ & Hch).
  pose proof (cell_numeric f e) as (Ca & Cc & _ & _ & _ & _ & Ccp & Ccv).
  destruct (scale_frame_spec _ _ _ _ Hnames numeric_cols_NoDup Hscale)
    as [Hscaled Hother].
  destruct (Hscaled 0%nat "amount" eq_refl) as (x0 & m0 & s0 & Hx0 & Hm0 & Hs0 & Hd0).
  destruct (Hscaled 1%nat "chargeback_history" eq_refl)
    as (x1 & m1 & s1 & Hx1 & Hm1 & Hs1 & Hd1).
  rewrite frame_get_unscaled, bool_decide_eq_true_2, Ca in Hx0
    by (apply Hin; unfold numeric_cols; rewrite !elem_of_cons; auto).
  rewrite frame_get_unscaled, bool_decide_eq_true_2, Cc in Hx1
    by (apply Hin; unfold numeric_cols; rewrite !elem_of_cons; auto).
  injection Hx0 as <-. injection Hx1 as <-.
  unfold standardize in Hd0, Hd1. cbn [num_to_float] in Hd0, Hd1.
  exists (amount f), (chargeback_history f), (card_present f), (cvv_present f),
    m0, s0, m1, s1.
  repeat split; try assumption.
  - intros Hc. rewrite Hother.
    + rewrite frame_get_unscaled, bool_decide_eq_true_2 by assumption. now rewrite Ccp.
    + unfold numeric_cols. rewrite !elem_of_cons, elem_of_nil. intuition discriminate.
  - intros Hc. rewrite Hother.
    + rewrite frame_get_unscaled, bool_decide_eq_true_2 by assumption. now rewrite Ccv.
    + unfold numeric_cols. rewrite !elem_of_cons, elem_of_nil. intuition discriminate.
Qed.

(** The amount "12.5" given as a str, no chargeback history, no card
    flags: (12.5 - 250) / 100 = -2.375 and (0 - 0.5) / 0.5 = -1.0. *)
Lemma raw_inputs_witness :
  exists df,
    prepare_features_from_raw Demo.runtime Demo.TRAIN_COLUMNS Demo.SCALER Demo.noon
      (PDict [("amount", PStr "12.5")]) = Ok df /\
    frame_get df "amount" = Some (NFloat (-2.375)) /\
    frame_get df "chargeback_history" = Some (NFloat (-1)) /\
    frame_get df "card_present" = Some (NInt 0).
Proof.
  eexists. split; [vm_compute; reflexivity |].
  match goal with
  | |- frame_get ?df _ = _ /\ _ =>
      destruct (raw_inputs_end_to_end Demo.runtime Demo.TRAIN_COLUMNS Demo.SCALER
                  Demo.noon [("amount", PStr "12.5")] df demo_assets_fitted eq_refl)
        as (a & ch & cp & cv & m0 & s0 & m1 & s1
            & Ha & Hch & Hcp & _ & Hm0 & Hs0 & Hm1 & Hs1 & Hda & Hdc & Hdp & _)
  end.
  vm_compute in Ha, Hch, Hcp, Hm0, Hs0, Hm1, Hs1.
  injection Ha as <-. injection Hch as <-. injection Hcp as <-.
  injection Hm0 as <-. injection Hs0 as <-. injection Hm1 as <-. injection Hs1 as <-.
  split; [exact Hda |]. split; [exact Hdc |].
  apply Hdp. apply (bool_decide_unpack _). vm_compute. exact I.
Defined.

(** ** Assets that do not fit together *)

Lemma frame_select_missing df names c :
  c ∈ names -> frame_get df c = None -> raises (frame_select df names).
Proof.
  induction names as [| c' cs IH]; intros Hc Hnone.
  - now apply elem_of_nil in Hc.
  - cbn [frame_select]. apply elem_of_cons in Hc as [<- | Hc].
    + rewrite Hnone. exact I.
    + destruct (frame_get df c'); [| exact I].
      specialize (IH Hc Hnone). destruct (frame_select df cs); [contradiction | exact I].
Qed.

(** X6. When the scaler was fitted on a column that is not one of
    [TRAIN_COLUMNS], no call of the aligner returns: whatever the record,
    it raises (at the latest [KeyError], at line 75). *)
Theorem scaler_column_missing_raises rt TRAIN_COLUMNS SCALER names c now record :
  feature_names_in_ SCALER = Some names ->
  c ∈ names ->
  c ∉ TRAIN_COLUMNS ->
  raises (prepare_features_from_raw rt TRAIN_COLUMNS SCALER now record).
Proof.
  intros Hnames Hc Hnin. unfold prepare_features_from_raw.
  destruct (extract rt now record) as [f |]; [| exact I]. cbn [bind].
  destruct (engineer f) as [e |]; [| exact I]. cbn [bind].
  unfold finish, scale_frame. rewrite Hnames.
  assert (Hsel : raises
            (frame_select (unscaled_frame TRAIN_COLUMNS f e (one_hot_items f)) names)).
  { apply (frame_select_missing _ _ c Hc).
    rewrite frame_get_unscaled. now rewrite bool_decide_eq_false_2. }
  destruct (frame_select _ names); [contradiction | exact I].
Qed.

(** A registry that lost the column amount, with the scaler of the demo. *)
Lemma scaler_column_missing_witness :
  raises
    (prepare_features_from_raw Demo.runtime
       ["chargeback_history"; "transaction_hour"; "transaction_day"; "card_present"]
       Demo.SCALER Demo.noon Demo.scenario).
Proof.
  apply (scaler_column_missing_raises Demo.runtime _ Demo.SCALER
           ["amount"; "chargeback_history"; "transaction_hour"; "transaction_day"]
           "amount").
  - reflexivity.
  - apply elem_of_cons. now left.
  - rewrite !elem_of_cons, elem_of_nil. intuition discriminate.
Defined.

(** ** The fields the aligner does not use *)




(** * Further properties of the prediction service *)

Lemma models_get_inv rt (lr_model rf_model : Model rt) choice model :
  models_get rt (MODELS rt lr_model rf_model) choice = Some model ->
  (choice = "lr" /\ model = lr_model) \/ (choice = "rf" /\ model = rf_model).
Proof.
  unfold MODELS. cbn [models_get].
  destruct (String.eqb_spec "lr" choice) as [<- | _]; [left; split; congruence |].
  destruct (String.eqb_spec "rf" choice) as [<- | _]; [right; split; congruence |].
  discriminate.
Qed.

Lemma extract_dict rt now record f :
  extract rt now record = Ok f -> exists d, record = PDict d.
Proof. destruct record; try discriminate. eauto. Qed.

(** Line 57 returns on a dict, a list and a str. *)
Lemma missing_fields_returns data ks :
  is_number data = false -> data <> PNone -> returns (missing_fields data ks).
Proof.
  intros Hnum Hnone. induction ks as [| k ks IH]; [exact I |].
  cbn [missing_fields].
  destruct data; try discriminate; try contradiction; cbn [contains bind];
    (destruct (missing_fields _ ks); [exact I | contradiction]).
Qed.

(** Line 57 raises on a number and on a bool, at the first field. *)
Lemma missing_fields_number data k ks :
  is_number data = true ->
  missing_fields data (k :: ks) =
  Raise (Exn TypeError ("argument of type '" +:+ type_name data +:+ "' is not iterable")).
Proof. destruct data; try discriminate; reflexivity. Qed.

Lemma request_data_not_None req : request_data req <> PNone.
Proof.
  unfold request_data. destruct (get_json req) as [v |]; [| discriminate].
  destruct (truthy v) eqn:Ht; [| discriminate].
  intros ->. discriminate Ht.
Qed.

Lemma request_data_number req :
  is_number (request_data req) = true ->
  exists v, get_json req = Some v /\ truthy v = true /\ request_data req = v.
Proof.
  unfold request_data. destruct (get_json req) as [v |]; [| discriminate].
  destruct (truthy v) eqn:Ht; [eauto | discriminate].
Qed.

Lemma absent_fields_nil d :
  absent_fields d = [] -> forall k, In k required -> dict_get d k <> None.
Proof.
  intros H k Hk Hnone.
  assert (Hin : In k (absent_fields d)).
  { apply filter_In. split; [assumption | now rewrite Hnone]. }
  rewrite H in Hin. contradiction.
Qed.

Lemma missing_fields_dict_nil d :
  missing_fields (PDict d) required = Ok [] -> absent_fields d = [].
Proof. rewrite missing_fields_dict. unfold absent_fields. congruence. Qed.

(** Everything a prediction tells about the run of the view function. *)
Lemma predict_prediction_full rt TRAIN_COLUMNS SCALER lr_model rf_model now req
    name input p is_fraud status :
  predict rt TRAIN_COLUMNS SCALER lr_model rf_model now req =
    Response (JPrediction name input p is_fraud) status ->
  status = 200 /\ input = request_data req /\
  name = (if String.eqb (model_choice req) "lr" then "logistic_regression"
          else "random_forest") /\
  missing_fields (request_data req) required = Ok [] /\
  exists model prob,
    models_get rt (MODELS rt lr_model rf_model) (model_choice req) = Some model /\
    prepare_and_predict rt TRAIN_COLUMNS SCALER now model (request_data req) =
      Ok (prob, is_fraud) /\
    p = py_round prob 4.
Proof.
  unfold predict.
  destruct (models_get rt (MODELS rt lr_model rf_model) (model_choice req))
    as [model |]; [| discriminate].
  destruct (missing_fields (request_data req) required) as [[| k ks] | e];
    [| discriminate | discriminate].
  destruct (prepare_and_predict rt TRAIN_COLUMNS SCALER now model (request_data req))
    as [[prob fraud] | e] eqn:Hpp; [| discriminate].
  intros H. injection H as <- <- <- <- <-. eauto 10.
Qed.

(** ** A prediction is made on a complete object only *)

(** X8. A response that carries a prediction was given to a body that is a
    JSON object holding each of the eleven required fields, and echoes that
    object: no list, str, number or incomplete object is ever predicted
    on. *)
Theorem prediction_needs_complete_object rt TRAIN_COLUMNS SCALER lr_model rf_model
    now req name input p is_fraud status :
  predict rt TRAIN_COLUMNS SCALER lr_model rf_model now req =
    Response (JPrediction name input p is_fraud) status ->
  exists d,
    get_json req = Some (PDict d) /\ input = PDict d /\
    forall k, In k required -> dict_get d k <> None.
Proof.
  intros H.
  apply predict_prediction_full in H
    as (_ & Hinput & _ & Hmiss & model & prob & _ & Hpp & _).
  unfold prepare_and_predict in Hpp. apply bind_Ok in Hpp as (x & Hx & _).
  apply prepare_inv in Hx as (f & _ & Hf & _).
  apply extract_dict in Hf as [d Hd].
  rewrite Hd in Hmiss.
  pose proof (absent_fields_nil d (missing_fields_dict_nil d Hmiss)) as Hall.
  exists d. split; [| split; [congruence | assumption]].
  unfold request_data in Hd. destruct (get_json req) as [v |].
  - destruct (truthy v); [congruence |].
    injection Hd as <-. exfalso. apply (Hall "amount"); [now left | reflexivity].
  - injection Hd as <-. exfalso. apply (Hall "amount"); [now left | reflexivity].
Qed.

Lemma prediction_needs_complete_object_witness :
  exists d,
    Some Demo.scenario = Some (PDict d) /\ Demo.scenario = PDict d /\
    forall k, In k required -> dict_get d k <> None.
Proof.
  apply (prediction_needs_complete_object Demo.runtime Demo.TRAIN_COLUMNS Demo.SCALER
           0.25%float 0.75%float Demo.noon
           {| args_model := Some "lr"; get_json := Some Demo.scenario |}
           "logistic_regression" Demo.scenario 0.25%float 0 200).
  reflexivity.
Defined.

(** ** The exception that leaves the view function *)

(** X9. An exception leaves [predict] exactly when the model parameter is
    valid and the body is a JSON number other than zero, or true: it is the
    [TypeError] of ["amount" not in data] at line 57.  Every other request
    is answered by a JSON document of the view. *)
Theorem unhandled_iff_number_body rt TRAIN_COLUMNS SCALER lr_model rf_model now req e :
  predict rt TRAIN_COLUMNS SCALER lr_model rf_model now req = Unhandled e <->
  (model_choice req = "lr" \/ model_choice req = "rf") /\
  exists v,
    get_json req = Some v /\ truthy v = true /\ is_number v = true /\
    e = Exn TypeError ("argument of type '" +:+ type_name v +:+ "' is not iterable").
Proof.
  split.
  - unfold predict.
    destruct (models_get rt (MODELS rt lr_model rf_model) (model_choice req))
      as [model |] eqn:Hm; [| discriminate].
    apply models_get_inv in Hm.
    destruct (is_number (request_data req)) eqn:Hnum.
    + unfold required. rewrite (missing_fields_number _ _ _ Hnum).
      intros H. injection H as <-.
      destruct (request_data_number req Hnum) as (v & Hv & Ht & Hd).
      split; [tauto |]. exists v. rewrite Hd in *. auto.
    + pose proof (missing_fields_returns _ required Hnum (request_data_not_None req))
        as Hret.
      destruct (missing_fields (request_data req) required) as [[| k ks] | e0];
        [| discriminate | contradiction].
      destruct (prepare_and_predict rt TRAIN_COLUMNS SCALER now model (request_data req))
        as [[prob fraud] | e0]; discriminate.
  - intros (Hchoice & v & Hv & Ht & Hnum & ->). unfold predict.
    destruct (models_get_known rt lr_model rf_model _ Hchoice) as [model ->].
    assert (Hd : request_data req = v).
    { unfold request_data. now rewrite Hv, Ht. }
    rewrite Hd. unfold required. now rewrite (missing_fields_number _ _ _ Hnum).
Qed.

(** ** The label names the classifier that answered *)

(** X10. In a prediction, the label is logistic_regression exactly when the
    model parameter lowercases to lr, and the probability is then the one
    the classifier loaded as lr gives for the aligned body; otherwise the
    parameter lowercases to rf, the label is random_forest and the
    classifier is the one loaded as rf. *)
Theorem prediction_label_matches_model rt TRAIN_COLUMNS SCALER lr_model rf_model
    now req name input p is_fraud status :
  predict rt TRAIN_COLUMNS SCALER lr_model rf_model now req =
    Response (JPrediction name input p is_fraud) status ->
  exists x_new prob,
    prepare_features_from_raw rt TRAIN_COLUMNS SCALER now input = Ok x_new /\
    p = py_round prob 4 /\
    ((model_choice req = "lr" /\ name = "logistic_regression" /\
      predict_proba1 rt lr_model x_new = Ok prob) \/
     (model_choice req = "rf" /\ name = "random_forest" /\
      predict_proba1 rt rf_model x_new = Ok prob)).
Proof.
  intros H.
  apply predict_prediction_full in H
    as (_ & -> & -> & _ & model & prob & Hm & Hpp & ->).
  unfold prepare_and_predict in Hpp.
  apply bind_Ok in Hpp as (x_new & Hx & Hpp). apply bind_Ok in Hpp as (prob' & Hprob & Hpp).
  injection Hpp as -> _.
  exists x_new, prob. split; [assumption |]. split; [reflexivity |].
  apply models_get_inv in Hm as [[Hc ->] | [Hc ->]]; rewrite Hc; [left | right]; auto.
Qed.

(** [?model=RF]: the classifier loaded as rf answers 0.75. *)
Lemma prediction_label_witness :
  exists x_new prob,
    prepare_features_from_raw Demo.runtime Demo.TRAIN_COLUMNS Demo.SCALER Demo.noon
      Demo.scenario = Ok x_new /\
    0.75%float = py_round prob 4 /\
    (("rf" = "lr" /\ "random_forest" = "logistic_regression" /\ Ok 0.25%float = Ok prob) \/
     ("rf" = "rf" /\ "random_forest" = "random_forest" /\ Ok 0.75%float = Ok prob)).
Proof.
  apply (prediction_label_matches_model Demo.runtime Demo.TRAIN_COLUMNS Demo.SCALER
           0.25%float 0.75%float Demo.noon
           {| args_model := Some "RF"; get_json := Some Demo.scenario |}
           "random_forest" Demo.scenario 0.75%float 1 200).
  reflexivity.
Defined.

(** ** Failures of the aligner *)

(** X11. A complete record that the aligner rejects is answered 500 with
    ["Failed to prepare or predict: "] followed by the text of the
    exception, whichever classifier was chosen. *)
Theorem aligner_failure_answered_500 rt TRAIN_COLUMNS SCALER lr_model rf_model
    now req d e :
  model_choice req = "lr" \/ model_choice req = "rf" ->
  request_data req = PDict d ->
  absent_fields d = [] ->
  prepare_features_from_raw rt TRAIN_COLUMNS SCALER now (PDict d) = Raise e ->
  predict rt TRAIN_COLUMNS SCALER lr_model rf_model now req =
  Response (JError ("Failed to prepare or predict: " +:+ message e)) 500.
Proof.
  intros Hchoice Hdata Habs Hraise. unfold predict.
  destruct (models_get_known rt lr_model rf_model _ Hchoice) as [model ->].
  rewrite Hdata, missing_fields_dict. fold (absent_fields d). rewrite Habs.
  unfold prepare_and_predict. rewrite Hraise. reflexivity.
Qed.

(** The scenario with an amount of null. *)
Lemma aligner_failure_witness :
  predict Demo.runtime Demo.TRAIN_COLUMNS Demo.SCALER 0.25%float 0.75%float Demo.noon
    {| args_model := Some "lr";
       get_json :=
         Some (PDict [ ("amount", PNone); ("category", PStr "Food");
                       ("merchant", PStr "ShopSmart");
                       ("timestamp", PStr "2025-10-10T14:30:00");
                       ("location", PStr "New York"); ("device", PStr "Mobile");
                       ("card_present", PInt 1); ("cvv_present", PInt 1);
                       ("card_bin", PInt 453212); ("ip_address", PStr "192.168.1.45");
                       ("chargeback_history", PInt 1) ]) |} =
  Response
    (JError
       "Failed to prepare or predict: float() argument must be a string or a real number, not 'NoneType'")
    500.
Proof.
  apply (aligner_failure_answered_500 Demo.runtime Demo.TRAIN_COLUMNS Demo.SCALER
           0.25%float 0.75%float Demo.noon _
           [ ("amount", PNone); ("category", PStr "Food");
             ("merchant", PStr "ShopSmart");
             ("timestamp", PStr "2025-10-10T14:30:00");
             ("location", PStr "New York"); ("device", PStr "Mobile");
             ("card_present", PInt 1); ("cvv_present", PInt 1);
             ("card_bin", PInt 453212); ("ip_address", PStr "192.168.1.45");
             ("chargeback_history", PInt 1) ]
           (Exn TypeError
              "float() argument must be a string or a real number, not 'NoneType'")).
  - now left.
  - reflexivity.
  - reflexivity.
  - reflexivity.
Defined.

(** ** The service and the clock *)

(** A body that passed line 58 holds a timestamp: the aligner reads the
    clock for it through [pd.to_datetime] only. *)
Lemma prepare_validated_same_reading rt cols sc now1 now2 data :
  missing_fields data required = Ok [] ->
  (forall d v, data = PDict d -> dict_get d "timestamp" = Some v ->
     same_reading (pd_to_datetime rt now1 v) (pd_to_datetime rt now2 v)) ->
  prepare_features_from_raw rt cols sc now1 data =
  prepare_features_from_raw rt cols sc now2 data.
Proof.
  intros H Hts. destruct data; try reflexivity.
  pose proof (absent_fields_nil d (missing_fields_dict_nil d H)) as Hall.
  destruct (dict_get d "timestamp") as [v |] eqn:Hv.
  - apply (prepare_same_reading rt cols sc now1 now2 d
             (pd_to_datetime rt now1 v) (pd_to_datetime rt now2 v)).
    + now rewrite Hv.
    + now rewrite Hv.
    + now apply (Hts d v).
  - exfalso. apply (Hall "timestamp"); [simpl; auto 10 | assumption].
Qed.

(** X12. The service never uses the default [datetime.now()] of the
    aligner, since a body passes line 58 only when it holds a timestamp:
    the response depends on the time of the call only through what
    [pd.to_datetime] makes of that timestamp.  Two requests alike, made at
    two times at which the timestamp of the body is read alike, get the same
    response. *)
Theorem predict_reads_clock_through_timestamp
  rt TRAIN_COLUMNS SCALER lr_model rf_model now1 now2 req :
  (forall d v, request_data req = PDict d -> dict_get d "timestamp" = Some v ->
     same_reading (pd_to_datetime rt now1 v) (pd_to_datetime rt now2 v)) ->
  predict rt TRAIN_COLUMNS SCALER lr_model rf_model now1 req =
  predict rt TRAIN_COLUMNS SCALER lr_model rf_model now2 req.
Proof.
  intros Hts. unfold predict.
  destruct (models_get rt (MODELS rt lr_model rf_model) (model_choice req))
    as [model |]; [| reflexivity].
  destruct (missing_fields (request_data req) required) as [[| k ks] | e] eqn:Hm;
    try reflexivity.
  unfold prepare_and_predict.
  now rewrite (prepare_validated_same_reading rt TRAIN_COLUMNS SCALER now1 now2 _ Hm Hts).
Qed.

(** The scenario of the specification, asked at noon on the 10th and at
    21:30 on the 11th: its timestamp is a date and a time of day, read alike
    at both times, and the answer is the same. *)
Lemma predict_reads_clock_witness :
  predict Demo.runtime Demo.TRAIN_COLUMNS Demo.SCALER 0.25%float 0.75%float
    Demo.noon {| args_model := Some "rf"; get_json := Some Demo.scenario |} =
  predict Demo.runtime Demo.TRAIN_COLUMNS Demo.SCALER 0.25%float 0.75%float
    Demo.evening {| args_model := Some "rf"; get_json := Some Demo.scenario |}.
Proof.
  apply (predict_reads_clock_through_timestamp Demo.runtime Demo.TRAIN_COLUMNS
           Demo.SCALER 0.25%float 0.75%float Demo.noon Demo.evening).
  intros d v Hd Hv. vm_compute in Hd. injection Hd as <-.
  vm_compute in Hv. injection Hv as <-. vm_compute. split; reflexivity.
Defined.

(** ** When the answer is 200 *)

Lemma filter_none {A : Type} (p : A -> bool) (l : list A) :
  (forall x, In x l -> p x = false) -> List.filter p l = [].
Proof.
  induction l as [| x l IH]; intros H; [reflexivity |].
  cbn [List.filter]. rewrite (H x) by now left.
  apply IH. intros y Hy. apply H. now right.
Qed.

Lemma absent_fields_all_present d :
  (forall k, In k required -> dict_get d k <> None) -> absent_fields d = [].
Proof.
  intros H. unfold absent_fields. apply filter_none. intros k Hk.
  specialize (H k Hk). now destruct (dict_get d k).
Qed.

(** A body that is an object with an amount is what line 50 keeps. *)
Lemma request_data_object req d :
  get_json req = Some (PDict d) -> dict_get d "amount" <> None ->
  request_data req = PDict d.
Proof.
  unfold request_data. intros -> H. destruct d; [contradiction | reflexivity].
Qed.

(** X13. The answer has status 200 exactly when the model parameter
    lowercases to lr or rf, the body is a JSON object that holds the eleven
    required fields, the aligner returns a frame for it and the chosen
    classifier returns a probability for that frame. *)
Theorem predict_200_iff rt TRAIN_COLUMNS SCALER lr_model rf_model now req :
  status_code (predict rt TRAIN_COLUMNS SCALER lr_model rf_model now req) = 200 <->
  exists d model x_new,
    ((model_choice req = "lr" /\ model = lr_model) \/
     (model_choice req = "rf" /\ model = rf_model)) /\
    get_json req = Some (PDict d) /\
    (forall k, In k required -> dict_get d k <> None) /\
    prepare_features_from_raw rt TRAIN_COLUMNS SCALER now (PDict d) = Ok x_new /\
    returns (predict_proba1 rt model x_new).
Proof.
  split.
  - unfold predict.
    destruct (models_get rt (MODELS rt lr_model rf_model) (model_choice req))
      as [model |] eqn:Hm; [| discriminate].
    apply models_get_inv in Hm.
    destruct (missing_fields (request_data req) required) as [[| k ks] | e] eqn:Hmiss;
      [| discriminate | discriminate].
    destruct (prepare_and_predict rt TRAIN_COLUMNS SCALER now model (request_data req))
      as [[prob fraud] | e] eqn:Hpp; [| discriminate].
    intros _. unfold prepare_and_predict in Hpp.
    apply bind_Ok in Hpp as (x_new & Hx & Hpp).
    apply bind_Ok in Hpp as (prob' & Hprob & _).
    destruct (prepare_inv _ _ _ _ _ _ Hx) as (f & _ & Hf & _).
    apply extract_dict in Hf as [d Hd]. rewrite Hd in Hmiss, Hx.
    pose proof (absent_fields_nil d (missing_fields_dict_nil d Hmiss)) as Hall.
    exists d, model, x_new. repeat split; try assumption.
    + unfold request_data in Hd. destruct (get_json req) as [v |].
      * destruct (truthy v); [congruence |].
        injection Hd as <-. exfalso. apply (Hall "amount"); [now left | reflexivity].
      * injection Hd as <-. exfalso. apply (Hall "amount"); [now left | reflexivity].
    + now rewrite Hprob.
  - intros (d & model & x_new & Hm & Hbody & Hall & Hx & Hret).
    apply returns_Ok in Hret as [prob Hprob]. unfold predict.
    assert (Hget : models_get rt (MODELS rt lr_model rf_model) (model_choice req) =
                   Some model).
    { destruct Hm as [[-> ->] | [-> ->]]; reflexivity. }
    rewrite Hget.
    rewrite (request_data_object req d Hbody (Hall "amount" ltac:(now left))).
    rewrite missing_fields_dict. fold (absent_fields d).
    rewrite (absent_fields_all_present d Hall).
    unfold prepare_and_predict. rewrite Hx. cbn [bind]. rewrite Hprob. reflexivity.
Qed.

(** * The identifier columns of [preprocess.py] *)

Lemma existsb_eqb_In c l : existsb (String.eqb c) l = true <-> In c l.
Proof.
  rewrite existsb_exists. split.
  - intros (x & Hx & Heq). apply String.eqb_eq in Heq. now subst.
  - intros H. exists c. split; [assumption | apply String.eqb_refl].
Qed.

(** X14. Line 90 never raises, whatever the columns of the frame are:
    it drops the identifier columns that the frame has, and keeps every
    other column, in order. *)
Theorem drop_identifiers_safe cols :
  drop_identifiers cols =
    Ok (List.filter (fun c => negb (existsb (String.eqb c) drop_cols)) cols) /\
  forall kept, drop_identifiers cols = Ok kept ->
    forall c, In c kept <-> In c cols /\ ~ In c drop_cols.
Proof.
  assert (Heq : drop_identifiers cols =
                Ok (List.filter (fun c => negb (existsb (String.eqb c) drop_cols)) cols)).
  { unfold drop_identifiers, drop_columns.
    replace (forallb (fun l => existsb (String.eqb l) cols)
               (List.filter (fun c => existsb (String.eqb c) cols) drop_cols))
      with true.
    - f_equal. apply filter_ext_in. intros c Hc. f_equal.
      apply eq_true_iff_eq. rewrite !existsb_eqb_In, filter_In, existsb_eqb_In. tauto.
    - symmetry. apply forallb_forall. intros l Hl. now apply filter_In in Hl. }
  split; [exact Heq |].
  intros kept Hk c.
  assert (kept = List.filter (fun c => negb (existsb (String.eqb c) drop_cols)) cols)
    as -> by congruence.
  rewrite filter_In. cbv beta.
  destruct (existsb (String.eqb c) drop_cols) eqn:E.
  - apply existsb_eqb_In in E. cbn [negb]. split; [intros [_ H]; discriminate H | tauto].
  - cbn [negb]. split; intros [H1 _]; (split; [assumption |]); [| reflexivity].
    intros Hin. apply existsb_eqb_In in Hin. congruence.
Qed.
